(** * The /search handler of main.py: a shallow embedding and its properties

    The program is one request handler, [search], that reads its
    configuration from the process environment and then drives a remote
    agent platform through a fixed sequence of calls.  The embedding keeps
    the handler executable: the platform is an explicit state machine
    passed to the handler, every call the handler issues is recorded in a
    trace together with the platform's reply, and Python exceptions are
    values of an error monad.

    Not part of the embedding: the [print] calls (they touch no variable the
    handler reads afterwards), the FastAPI route declaration, and entering
    and leaving the [with project_client:] block, which releases the client
    and issues no operation on agents, threads, messages or runs. *)

From Stdlib Require Import String Ascii List Bool Arith ZArith Lia DecimalString Sorted.
Import ListNotations.
Local Open Scope list_scope.
Local Open Scope string_scope.

(** ** Python values used by the handler *)

Module Py.

(** A [str] is a sequence of code points; the embedding covers the code
    points U+0000..U+00FF, one per [ascii]. *)

(** [str.strip()] removes the characters for which the interpreter's
    whitespace test holds; below U+0100 these are TAB..CR, FS..US, SPACE,
    NEL (U+0085) and NBSP (U+00A0). *)
Definition isspace (c : ascii) : bool :=
  let n := nat_of_ascii c in
  ((9 <=? n) && (n <=? 13) || (28 <=? n) && (n <=? 31) || (n =? 32)
   || (n =? 133) || (n =? 160))%nat.

Fixpoint lstrip (s : string) : string :=
  match s with
  | EmptyString => EmptyString
  | String c s' => if isspace c then lstrip s' else s
  end.

Fixpoint rstrip (s : string) : string :=
  match s with
  | EmptyString => EmptyString
  | String c s' =>
      match rstrip s' with
      | EmptyString => if isspace c then EmptyString else String c EmptyString
      | r => String c r
      end
  end.

(** [s.strip()] *)
Definition strip (s : string) : string := lstrip (rstrip s).

(** [sep.join(parts)] *)
Fixpoint join (sep : string) (parts : list string) : string :=
  match parts with
  | [] => ""
  | [p] => p
  | p :: rest => p ++ sep ++ join sep rest
  end.

(** The one-character string of a line feed. *)
Definition newline : string := String "010" EmptyString.

(** Truth value of a [str]: the empty string is falsy. *)
Definition str_truthy (s : string) : bool :=
  match s with EmptyString => false | _ => true end.

(** Truth value of an [Optional[str]] such as [os.environ.get(k)]. *)
Definition opt_truthy (o : option string) : bool :=
  match o with None => false | Some s => str_truthy s end.

(** The values that reach a response body or that [str()] is applied to:
    [None], a [str], or an object known only through its [str()]. *)
Inductive value :=
| PyNone
| PyStr (s : string)
| PyObj (rendering : string).

(** [str(v)] *)
Definition str (v : value) : string :=
  match v with
  | PyNone => "None"
  | PyStr s => s
  | PyObj r => r
  end.

(** [x or None] for a [str] x. *)
Definition or_none (s : string) : value :=
  if str_truthy s then PyStr s else PyNone.


(** A [dict] with [str] keys, in insertion order. *)
Definition dict := list (string * value).

Fixpoint dict_get (k : string) (d : dict) : option value :=
  match d with
  | [] => None
  | (k', v) :: d' => if String.eqb k k' then Some v else dict_get k d'
  end.

Definition dict_keys (d : dict) : list string := map fst d.

(** [os.environ]: a mapping from names to strings. *)
Definition environ := list (string * string).

(** [os.environ.get(k)] *)
Fixpoint environ_get (env : environ) (k : string) : option string :=
  match env with
  | [] => None
  | (k', v) :: env' => if String.eqb k k' then Some v else environ_get env' k
  end.

(** [os.environ.get(k, default)] *)
Definition environ_get_default (env : environ) (k default : string) : string :=
  match environ_get env k with Some v => v | None => default end.

(** An exception instance: its class name and its [str()]. Every exception
    in the embedding is an instance of [Exception]. *)
Record exn := mkExn { exn_class : string; exn_str : string }.

End Py.

Import Py.

(** ** Objects of the agent platform (azure.ai.projects, azure.ai.agents)

    Each object carries the attributes the handler reads. *)

(** Result of [connections.get]. *)
Module Connection.
Record t := mk { id : string }.
End Connection.

(** One entry of [BingGroundingTool(connection_id=...).definitions]. *)
Module ToolDefinition.
Record t := mk { type : string; connection_id : string }.
End ToolDefinition.

(** [BingGroundingTool(connection_id=cid).definitions] *)
Definition bing_tool_definitions (cid : string) : list ToolDefinition.t :=
  [ToolDefinition.mk "bing_grounding" cid].

(** An agent as listed or created. The name is nullable on the platform:
    [create_agent] accepts [name=None]. *)
Module Agent.
Record t := mk { id : string; name : option string }.
End Agent.

Module Thread.
Record t := mk { id : string }.
End Thread.

(** A run. [last_error] is read through [getattr] with a default: [None]
    stands for an absent attribute, [Some PyNone] for the attribute [None]. *)
Module Run.
Record t := mk { id : string; status : string; last_error : option value }.
End Run.

(** [item['text']]: a mapping that may hold the key ['value']. *)
Module TextDetails.
Record t := mk { value : option string }.
End TextDetails.

(** A content block of a message: a mapping that may hold the key ['text']. *)
Module ContentItem.
Record t := mk { text : option TextDetails.t }.
End ContentItem.

(** A thread message. [created_at] is the platform's creation time; the
    handler does not read it. A message object is truthy. *)
Module Message.
Record t := mk {
  id : string;
  role : string;
  created_at : Z;
  content : list ContentItem.t
}.
End Message.

(** ** Results, calls and traces *)

(** What a call or the handler yields: a value, or a raised exception. *)
Inductive res (A : Type) :=
| Returned (a : A)
| Raised (e : exn).
Arguments Returned {A} a.
Arguments Raised {A} e.

(** The operations the handler performs outside the process, with their
    arguments, in the order of main.py. *)
Inductive Call :=
| CallDefaultAzureCredential
| CallAIProjectClient (endpoint : option string)
| CallConnectionsGet (name : option string)
| CallListAgents
| CallCreateAgent (model : string) (name instructions : option string)
    (tools : list ToolDefinition.t) (headers : list (string * string))
    (temperature : Z)
| CallThreadsCreate
| CallMessagesCreate (thread_id role content : string)
| CallRunsCreate (thread_id agent_id : string)
| CallSleep (seconds : Z)
| CallRunsGet (thread_id run_id : string)
| CallMessagesList (thread_id : string).

Inductive Reply :=
| ReplyDone
| ReplyConnection (c : Connection.t)
| ReplyAgents (l : list Agent.t)
| ReplyAgent (a : Agent.t)
| ReplyThread (t : Thread.t)
| ReplyMessage (m : Message.t)
| ReplyRun (r : Run.t)
| ReplyMessages (l : list Message.t)
| ReplyRaised (e : exn).

Definition Event : Type := Call * Reply.
Definition Trace := list Event.

(** The remote side as a state machine over a world [W]. *)
Record Platform (W : Type) := {
  default_credential : W -> res unit * W;
  project_client : option string -> W -> res unit * W;
  connections_get : option string -> W -> res Connection.t * W;
  list_agents : W -> res (list Agent.t) * W;
  create_agent : string -> option string -> option string ->
                 list ToolDefinition.t -> list (string * string) -> Z ->
                 W -> res Agent.t * W;
  threads_create : W -> res Thread.t * W;
  messages_create : string -> string -> string -> W -> res Message.t * W;
  runs_create : string -> string -> W -> res Run.t * W;
  sleep : Z -> W -> W;
  runs_get : string -> string -> W -> res Run.t * W;
  messages_list : string -> W -> res (list Message.t) * W
}.
Arguments default_credential {W}.
Arguments project_client {W}.
Arguments connections_get {W}.
Arguments list_agents {W}.
Arguments create_agent {W}.
Arguments threads_create {W}.
Arguments messages_create {W}.
Arguments runs_create {W}.
Arguments sleep {W}.
Arguments runs_get {W}.
Arguments messages_list {W}.

(** ** The monad of the handler: platform state, trace, exceptions *)

Section Monad.
Context {W : Type}.

Definition M (A : Type) : Type := W * Trace -> res A * (W * Trace).

Definition ret {A} (a : A) : M A := fun s => (Returned a, s).

Definition raise {A} (e : exn) : M A := fun s => (Raised e, s).

Definition bind {A B} (m : M A) (k : A -> M B) : M B :=
  fun s =>
    match m s with
    | (Returned a, s') => k a s'
    | (Raised e, s') => (Raised e, s')
    end.

(** [try: m  except Exception as e: h e] *)
Definition try_except {A} (m : M A) (h : exn -> M A) : M A :=
  fun s =>
    match m s with
    | (Returned a, s') => (Returned a, s')
    | (Raised e, s') => h e s'
    end.

(** Perform one platform operation and record it with its reply. *)
Definition invoke {A} (c : Call) (op : W -> res A * W) (reply : A -> Reply)
  : M A :=
  fun '(w, tr) =>
    match op w with
    | (Returned a, w') => (Returned a, (w', (tr ++ [(c, reply a)])%list))
    | (Raised e, w') => (Raised e, (w', (tr ++ [(c, ReplyRaised e)])%list))
    end.

End Monad.

Notation "x <- m ;; k" := (bind m (fun x => k))
  (at level 61, m at next level, right associativity).
Notation "m ;;; k" := (bind m (fun _ => k))
  (at level 61, right associativity).

(** ** main.py *)

Definition opt_str_eqb (a b : option string) : bool :=
  match a, b with
  | None, None => true
  | Some x, Some y => String.eqb x y
  | _, _ => false
  end.

(** The text a content block contributes in the extraction loop:
    ['text' in item and 'value' in item['text'] and item['text']['value']]. *)
Definition item_text_value (item : ContentItem.t) : option string :=
  match ContentItem.text item with
  | Some t =>
      match TextDetails.value t with
      | Some v => if str_truthy v then Some v else None
      | None => None
      end
  | None => None
  end.

(** [EnvironmentError(msg)] *)
Definition EnvironmentError (msg : string) : exn := mkExn "OSError" msg.

(** The extraction loop (lines 155-159): the text gathered from the
    content blocks of [last_msg], one line per text-bearing block. *)
Definition collect_text (last_msg : option Message.t) : string :=
  let assistant_text := "" in
  match last_msg with
  | Some m =>
      match Message.content m with
      | [] => assistant_text
      | content =>
          fold_left (fun acc item =>
                       match item_text_value item with
                       | Some v => acc ++ v ++ newline
                       | None => acc
                       end) content assistant_text
      end
  | None => assistant_text
  end.

Section Search.
Context {W : Type} (P : Platform W).

(** The guarded block of [search] from the run-status check on (lines
    129-186), given what the earlier steps bound. [getattr(run, "id", None)]
    and [getattr(run, "status", None)] find their attribute: lines 124 and
    129 have read both before. *)
Definition finish (query : string) (agent : Agent.t) (thread : Thread.t)
    (run : Run.t) : M dict :=
  if String.eqb (Run.status run) "failed" then
    ret [("query", PyStr query);
         ("status", PyStr (Run.status run));
         ("error", PyStr (str (match Run.last_error run with
                               | Some v => v
                               | None => PyStr "Unknown error"
                               end)))]
  else
    messages_list <- invoke (CallMessagesList (Thread.id thread))
                       (messages_list P (Thread.id thread)) ReplyMessages ;;
    let last_msg :=
      find (fun m => String.eqb (Message.role m) "assistant")
           (rev messages_list) in
    let assistant_text := collect_text last_msg in
    let assistant_text := strip assistant_text in
    ret [("query", PyStr query);
         ("agent_id", PyStr (Agent.id agent));
         ("thread_id", PyStr (Thread.id thread));
         ("run_id", PyStr (Run.id run));
         ("run_status", PyStr (Run.status run));
         ("assistant_response", or_none assistant_text)].

(** The guarded block of [search] (lines 55-186). *)
Definition search_body (query : string)
    (project_conn_str bing_connection_name agent_name agent_instructions
       : option string) (agent_llm : string) : M dict :=
  invoke CallDefaultAzureCredential (default_credential P)
    (fun _ => ReplyDone) ;;;
  invoke (CallAIProjectClient project_conn_str)
    (project_client P project_conn_str) (fun _ => ReplyDone) ;;;
  bing_connection <- invoke (CallConnectionsGet bing_connection_name)
                       (connections_get P bing_connection_name)
                       ReplyConnection ;;
  let bing_tool := bing_tool_definitions (Connection.id bing_connection) in
  agents_list <- invoke CallListAgents (list_agents P) ReplyAgents ;;
  let agent := find (fun a => opt_str_eqb (Agent.name a) agent_name)
                    agents_list in
  agent <- match agent with
           | None =>
               let headers := [("x-ms-enable-preview", "true")] in
               invoke (CallCreateAgent agent_llm agent_name agent_instructions
                         bing_tool headers 0)
                 (create_agent P agent_llm agent_name agent_instructions
                    bing_tool headers 0)
                 ReplyAgent
           | Some a => ret a
           end ;;
  thread <- invoke CallThreadsCreate (threads_create P) ReplyThread ;;
  invoke (CallMessagesCreate (Thread.id thread) "user" query)
    (messages_create P (Thread.id thread) "user" query) ReplyMessage ;;;
  run <- invoke (CallRunsCreate (Thread.id thread) (Agent.id agent))
           (runs_create P (Thread.id thread) (Agent.id agent)) ReplyRun ;;
  let wait_seconds := 7%Z in
  invoke (CallSleep wait_seconds)
    (fun w => (Returned tt, sleep P wait_seconds w)) (fun _ => ReplyDone) ;;;
  run <- try_except
           (invoke (CallRunsGet (Thread.id thread) (Run.id run))
              (runs_get P (Thread.id thread) (Run.id run)) ReplyRun)
           (fun _ => ret run) ;;
  finish query agent thread run.

(** [search(query)], run in the process environment [env]. *)
Definition search (env : environ) (query : string) : M dict :=
  let project_conn_str := environ_get env "PROJECT_CONNECTION_STRING" in
  let bing_connection_name := environ_get env "BING_RESOURCE_NAME" in
  let agent_name := environ_get env "AGENT_NAME" in
  let agent_instructions := environ_get env "AGENT_INSTRUCTIONS" in
  let agent_llm := environ_get_default env "MODEL_DEPLOYMENT_NAME" "gpt-4.1" in
  let missing_vars : list string := [] in
  let missing_vars :=
    if negb (opt_truthy project_conn_str)
    then (missing_vars ++ ["PROJECT_CONNECTION_STRING"])%list
    else missing_vars in
  let missing_vars :=
    if negb (opt_truthy bing_connection_name)
    then (missing_vars ++ ["BING_RESOURCE_NAME"])%list
    else missing_vars in
  match missing_vars with
  | _ :: _ =>
      raise (EnvironmentError
               ("Missing environment variable(s): " ++ join ", " missing_vars))
  | [] =>
      try_except
        (search_body query project_conn_str bing_connection_name agent_name
           agent_instructions agent_llm)
        (fun e => ret [("error", PyStr (exn_str e))])
  end.

(** One request against the platform in world [w]: the handler's outcome,
    the world it leaves and the calls it made. *)
Definition run_search (env : environ) (query : string) (w : W)
  : res dict * W * Trace :=
  match search env query (w, []) with
  | (o, (w', tr)) => (o, w', tr)
  end.

End Search.

(** ** Kinds of calls *)

(** The calls of a trace. *)
Definition calls (tr : Trace) : list Call := map fst tr.

Definition is_create_agent (c : Call) : bool :=
  match c with CallCreateAgent _ _ _ _ _ _ => true | _ => false end.

Definition is_threads_create (c : Call) : bool :=
  match c with CallThreadsCreate => true | _ => false end.

Definition is_runs_get (c : Call) : bool :=
  match c with CallRunsGet _ _ => true | _ => false end.

Definition is_messages_list (c : Call) : bool :=
  match c with CallMessagesList _ => true | _ => false end.

(** ** A scripted platform

    A small deterministic platform used to run the handler on concrete
    requests. Agents and threads receive server-assigned ids; the script
    fixes the run's status before and after the wait, the messages the
    thread listing returns, and which calls raise. *)

Module Stub.

Record world := mkWorld {
  agents : list Agent.t;
  threads : nat;
  initial_status : string;
  final_status : string;
  last_error : option value;
  thread_messages : list Message.t;
  faults : Call -> option exn
}.

Definition decimal (n : nat) : string :=
  DecimalString.NilEmpty.string_of_uint (Nat.to_uint n).

Definition answer {A} (w : world) (c : Call) (a : A) (w' : world)
  : res A * world :=
  match faults w c with
  | Some e => (Raised e, w)
  | None => (Returned a, w')
  end.

Definition with_agents (w : world) (l : list Agent.t) : world :=
  mkWorld l (threads w) (initial_status w) (final_status w) (last_error w)
    (thread_messages w) (faults w).

Definition with_threads (w : world) (n : nat) : world :=
  mkWorld (agents w) n (initial_status w) (final_status w) (last_error w)
    (thread_messages w) (faults w).

Definition platform : Platform world := {|
  default_credential := fun w => answer w CallDefaultAzureCredential tt w;
  project_client := fun ep w => answer w (CallAIProjectClient ep) tt w;
  connections_get := fun n w =>
    answer w (CallConnectionsGet n)
      (Connection.mk ("conn/" ++ match n with Some s => s | None => "" end)) w;
  list_agents := fun w => answer w CallListAgents (agents w) w;
  create_agent := fun model name instr tools headers temp w =>
    let a := Agent.mk ("asst_" ++ decimal (length (agents w))) name in
    answer w (CallCreateAgent model name instr tools headers temp) a
      (with_agents w (agents w ++ [a])%list);
  threads_create := fun w =>
    answer w CallThreadsCreate (Thread.mk ("thread_" ++ decimal (threads w)))
      (with_threads w (S (threads w)));
  messages_create := fun tid role text w =>
    answer w (CallMessagesCreate tid role text)
      (Message.mk "msg_0" role 0
         [ContentItem.mk (Some (TextDetails.mk (Some text)))]) w;
  runs_create := fun tid aid w =>
    answer w (CallRunsCreate tid aid)
      (Run.mk "run_0" (initial_status w) (last_error w)) w;
  sleep := fun _ w => w;
  runs_get := fun tid rid w =>
    answer w (CallRunsGet tid rid)
      (Run.mk rid (final_status w) (last_error w)) w;
  messages_list := fun tid w =>
    answer w (CallMessagesList tid) (thread_messages w) w
|}.

Definition no_faults : Call -> option exn := fun _ => None.

(** A text content block and an assistant message made of text blocks. *)
Definition text_item (s : string) : ContentItem.t :=
  ContentItem.mk (Some (TextDetails.mk (Some s))).

Definition assistant (id : string) (at_time : Z) (texts : list string)
  : Message.t :=
  Message.mk id "assistant" at_time (map text_item texts).

Definition user (id : string) (at_time : Z) (text : string) : Message.t :=
  Message.mk id "user" at_time [text_item text].

(** The environment of a configured deployment. *)
Definition env_full : environ :=
  [("PROJECT_CONNECTION_STRING", "https://project.example");
   ("BING_RESOURCE_NAME", "bing");
   ("AGENT_NAME", "searcher");
   ("AGENT_INSTRUCTIONS", "Answer with sources.")].

(** A world with no agent, whose run completes with one assistant answer. *)
Definition paris : world :=
  mkWorld [] 0 "queued" "completed" (Some PyNone)
    [user "msg_0" 1 "capital of France?";
     assistant "msg_1" 2 ["Paris is the capital of France."]]
    no_faults.

(** One agent carries the configured name; the listing shows it after an
    agent of another name and before a second agent of the same name. *)
Definition three_agents : list Agent.t :=
  [Agent.mk "asst_a" (Some "translator");
   Agent.mk "asst_b" (Some "searcher");
   Agent.mk "asst_c" (Some "searcher")].

Definition staffed : world :=
  mkWorld three_agents 0 "queued" "completed" (Some PyNone)
    [user "msg_0" 1 "capital of France?";
     assistant "msg_1" 2 ["Paris is the capital of France."]]
    no_faults.

(** The thread listing arrives newest first and holds two assistant
    messages. *)
Definition newest_first : world :=
  mkWorld three_agents 0 "queued" "completed" (Some PyNone)
    [assistant "msg_2" 3 ["Paris."];
     assistant "msg_1" 2 ["Let me look that up."];
     user "msg_0" 1 "capital of France?"]
    no_faults.

(** The same thread listed oldest first. *)
Definition oldest_first : world :=
  mkWorld three_agents 0 "queued" "completed" (Some PyNone)
    (rev (thread_messages newest_first)) no_faults.

(** The run fails with last error rate_limited. *)
Definition rate_limited : world :=
  mkWorld three_agents 0 "queued" "failed" (Some (PyStr "rate_limited"))
    [user "msg_0" 1 "capital of France?"] no_faults.

(** The status refresh raises; the run was created in progress. *)
Definition refresh_down : world :=
  mkWorld three_agents 0 "in_progress" "completed" (Some PyNone)
    [user "msg_0" 1 "capital of France?";
     assistant "msg_1" 2 ["Paris is the capital of France."]]
    (fun c => if is_runs_get c
              then Some (mkExn "HttpResponseError" "service unavailable")
              else None).

(** The connection lookup raises. *)
Definition no_connection : world :=
  mkWorld three_agents 0 "queued" "completed" (Some PyNone) []
    (fun c => match c with
              | CallConnectionsGet _ =>
                  Some (mkExn "ResourceNotFoundError" "connection not found")
              | _ => None
              end).


(** The project holds one agent, created without a name. *)
Definition unnamed_agent : world :=
  mkWorld [Agent.mk "asst_u" None] 0 "queued" "completed" (Some PyNone)
    [user "msg_0" 1 "capital of France?";
     assistant "msg_1" 2 ["Paris is the capital of France."]]
    no_faults.

(** A deployment that sets only the two required values. *)
Definition env_required_only : environ :=
  [("PROJECT_CONNECTION_STRING", "https://project.example");
   ("BING_RESOURCE_NAME", "bing")].

(** The run ends cancelled: a terminal status other than "failed". *)
Definition cancelled : world :=
  mkWorld three_agents 0 "queued" "cancelled" (Some PyNone)
    [user "msg_0" 1 "capital of France?"] no_faults.

(** The assistant answered with blank lines only. *)
Definition blank_answer : world :=
  mkWorld three_agents 0 "queued" "completed" (Some PyNone)
    [user "msg_0" 1 "capital of France?";
     assistant "msg_1" 2 ["  "; String "009" ""]]
    no_faults.

(** The answer comes padded with spaces and line feeds, in two blocks. *)
Definition padded_answer : world :=
  mkWorld three_agents 0 "queued" "completed" (Some PyNone)
    [user "msg_0" 1 "capital of France?";
     assistant "msg_1" 2 ["  Paris."; "Sources: none.  "]]
    no_faults.

(** The run was created failed, and completed by the time of the refresh. *)
Definition recovered : world :=
  mkWorld three_agents 0 "failed" "completed" (Some PyNone)
    [user "msg_0" 1 "capital of France?";
     assistant "msg_1" 2 ["Paris is the capital of France."]]
    no_faults.

End Stub.

(** ** Vocabulary of the specification *)

(** The configuration values the handler requires. *)
Definition required_keys : list string :=
  ["PROJECT_CONNECTION_STRING"; "BING_RESOURCE_NAME"].

(** The required keys that are unset or empty in [env], in order. *)
Definition missing_required (env : environ) : list string :=
  filter (fun k => negb (opt_truthy (environ_get env k))) required_keys.

(** The generic error payload: one field holding [str(e)]. *)
Definition error_payload (e : exn) : dict := [("error", PyStr (exn_str e))].

(** The parts of a request's result. *)
Definition outcome_of {W} (r : res dict * W * Trace) : res dict := fst (fst r).
Definition world_of {W} (r : res dict * W * Trace) : W := snd (fst r).
Definition trace_of {W} (r : res dict * W * Trace) : Trace := snd r.

(** A field of the payload the handler returned, if it returned one. *)
Definition payload_field (k : string) (o : res dict) : option value :=
  match o with
  | Returned d => dict_get k d
  | Raised _ => None
  end.

(** The run the handler goes by after the wait: the last run the platform
    replied with (the refreshed run, or the run as created when the
    refresh raised). *)
Definition observed_run (tr : Trace) : option Run.t :=
  fold_left (fun acc ev => match snd ev with
                           | ReplyRun r => Some r
                           | _ => acc
                           end) tr None.

(** The last message of a listing, in the order returned, whose role is
    assistant. *)
Fixpoint last_assistant (l : list Message.t) : option Message.t :=
  match l with
  | [] => None
  | m :: l' =>
      match last_assistant l' with
      | Some m' => Some m'
      | None => if String.eqb (Message.role m) "assistant" then Some m else None
      end
  end.

(** The assistant message created last, whatever its place in the
    listing. *)
Definition most_recent_assistant (l : list Message.t) : option Message.t :=
  fold_left (fun best m =>
               if String.eqb (Message.role m) "assistant" then
                 match best with
                 | Some b =>
                     if (Message.created_at b <? Message.created_at m)%Z
                     then Some m else Some b
                 | None => Some m
                 end
               else best) l None.

(** A listing in creation order, oldest first. *)
Definition chronological (l : list Message.t) : Prop :=
  StronglySorted
    (fun a b => (Message.created_at a <= Message.created_at b)%Z) l.


(** The values of the text-bearing content blocks, in order. *)
Fixpoint text_values (content : list ContentItem.t) : list string :=
  match content with
  | [] => []
  | item :: rest =>
      match item_text_value item with
      | Some v => v :: text_values rest
      | None => text_values rest
      end
  end.

(** The answer read off a message: the values of its text-bearing blocks
    joined by newlines, with surrounding whitespace trimmed; empty when
    there is no message. *)
Definition joined_text (m : option Message.t) : string :=
  match m with
  | Some m => strip (join newline (text_values (Message.content m)))
  | None => ""
  end.

(** What the extraction loop appends for a list of values: each value
    followed by a newline. *)
Fixpoint lines (vs : list string) : string :=
  match vs with
  | [] => ""
  | v :: rest => v ++ newline ++ lines rest
  end.

(** The place of a call in the handler's script, main.py read from top to
    bottom. *)
Definition rank (c : Call) : nat :=
  match c with
  | CallDefaultAzureCredential => 0
  | CallAIProjectClient _ => 1
  | CallConnectionsGet _ => 2
  | CallListAgents => 3
  | CallCreateAgent _ _ _ _ _ _ => 4
  | CallThreadsCreate => 5
  | CallMessagesCreate _ _ _ => 6
  | CallRunsCreate _ _ => 7
  | CallSleep _ => 8
  | CallRunsGet _ _ => 9
  | CallMessagesList _ => 10
  end.

Definition is_messages_create (c : Call) : bool :=
  match c with CallMessagesCreate _ _ _ => true | _ => false end.

(** A string made of whitespace only (the empty string included). *)
Fixpoint blank (s : string) : bool :=
  match s with
  | EmptyString => true
  | String c s' => isspace c && blank s'
  end.

(** The three shapes of a response body. *)
Definition error_keys : list string := ["error"].
Definition failure_keys : list string := ["query"; "status"; "error"].
Definition success_keys : list string :=
  ["query"; "agent_id"; "thread_id"; "run_id"; "run_status";
   "assistant_response"].

(** ** Strings and the extraction loop *)

Section Text.

Lemma append_assoc (a b c : string) : (a ++ b) ++ c = a ++ b ++ c.
Proof. induction a as [|x a IH]; simpl; [reflexivity | now rewrite IH]. Qed.

Lemma append_empty_r (a : string) : a ++ "" = a.
Proof. induction a as [|x a IH]; simpl; [reflexivity | now rewrite IH]. Qed.

(** A trailing newline is whitespace: trimming on the right drops it. *)
Lemma rstrip_newline (s : string) : rstrip (s ++ newline) = rstrip s.
Proof.
  induction s as [|c s IH]; simpl.
  - reflexivity.
  - now rewrite IH.
Qed.

Lemma strip_newline (s : string) : strip (s ++ newline) = strip s.
Proof. unfold strip; now rewrite rstrip_newline. Qed.

(** The loop appends to its accumulator the lines of the text values. *)
Lemma collect_loop (content : list ContentItem.t) (acc : string) :
  fold_left (fun acc item =>
               match item_text_value item with
               | Some v => acc ++ v ++ newline
               | None => acc
               end) content acc
  = acc ++ lines (text_values content).
Proof.
  revert acc; induction content as [|item rest IH]; intros acc; simpl.
  - now rewrite append_empty_r.
  - rewrite IH; destruct (item_text_value item) as [v|]; simpl.
    + now rewrite !append_assoc.
    + reflexivity.
Qed.

(** Lines are the newline-joined values followed by one more newline. *)
Lemma lines_join (v : string) (vs : list string) :
  lines (v :: vs) = join newline (v :: vs) ++ newline.
Proof.
  revert v; induction vs as [|v' vs IH]; intros v.
  - cbn [lines join]; now rewrite append_empty_r.
  - change (lines (v :: v' :: vs)) with (v ++ newline ++ lines (v' :: vs)).
    change (join newline (v :: v' :: vs))
      with (v ++ newline ++ join newline (v' :: vs)).
    now rewrite IH, !append_assoc.
Qed.

Lemma strip_lines (vs : list string) :
  strip (lines vs) = strip (join newline vs).
Proof.
  destruct vs as [|v vs]; [reflexivity |].
  now rewrite lines_join, strip_newline.
Qed.

(** What the handler gathers and trims is the newline-joined text of the
    selected message, trimmed. *)
Lemma collect_text_joined (last_msg : option Message.t) :
  strip (collect_text last_msg) = joined_text last_msg.
Proof.
  destruct last_msg as [m|]; [| reflexivity].
  unfold collect_text, joined_text.
  rewrite <- strip_lines.
  destruct (Message.content m) as [|item rest] eqn:E; [reflexivity |].
  now rewrite collect_loop.
Qed.

Lemma find_append {A} (f : A -> bool) (l1 l2 : list A) :
  find f (l1 ++ l2)%list =
  match find f l1 with Some x => Some x | None => find f l2 end.
Proof.
  induction l1 as [|x l1 IH]; simpl; [reflexivity |].
  now destruct (f x).
Qed.

(** Scanning the reversed listing for the first assistant message finds
    the last one of the listing. *)
Lemma find_rev_last_assistant (l : list Message.t) :
  find (fun m => String.eqb (Message.role m) "assistant") (rev l)
  = last_assistant l.
Proof.
  induction l as [|m l IH]; [reflexivity |].
  simpl; rewrite find_append, IH.
  destruct (last_assistant l); [reflexivity |].
  simpl; now destruct (String.eqb (Message.role m) "assistant").
Qed.

Lemma last_assistant_in (l : list Message.t) (m : Message.t) :
  last_assistant l = Some m ->
  In m l /\ Message.role m = "assistant".
Proof.
  induction l as [|x l IH]; simpl; [discriminate |].
  destruct (last_assistant l) as [m'|].
  - intros [= <-]; destruct (IH eq_refl); auto.
  - destruct (String.eqb (Message.role x) "assistant") eqn:E;
      [| discriminate].
    intros [= <-]; apply String.eqb_eq in E; auto.
Qed.

Lemma last_assistant_none (l : list Message.t) :
  last_assistant l = None <->
  forall m, In m l -> Message.role m <> "assistant".
Proof.
  induction l as [|x l IH]; simpl.
  - split; [intros _ m [] | reflexivity].
  - destruct (last_assistant l) as [m'|].
    + split; [discriminate |].
      intros H; exfalso.
      destruct IH as [_ IH].
      assert (D : @None Message.t = None -> False).
      { intros _. 
        assert (Some m' = None) by (apply IH; intros m Hm; apply H; auto).
        discriminate. }
      now apply D.
    + destruct IH as [IH _]; specialize (IH eq_refl).
      destruct (String.eqb (Message.role x) "assistant") eqn:E.
      * split; [discriminate |].
        intros H; apply String.eqb_eq in E; now elim (H x (or_introl eq_refl)).
      * apply String.eqb_neq in E.
        split; [| reflexivity].
        intros _ m [<- | Hm]; auto.
Qed.

(** In a chronological listing no assistant message is newer than the
    last one. *)
Lemma last_assistant_newest (l : list Message.t) (m : Message.t) :
  chronological l ->
  last_assistant l = Some m ->
  forall m', In m' l -> Message.role m' = "assistant" ->
             (Message.created_at m' <= Message.created_at m)%Z.
Proof.
  unfold chronological; induction 1 as [|x l Hs IH Hx]; simpl;
    [discriminate |].
  destruct (last_assistant l) as [m0|] eqn:E.
  - intros [= <-] m' [<- | Hin] Hr.
    + rewrite Forall_forall in Hx; apply Hx.
      now apply last_assistant_in.
    + now apply IH.
  - destruct (String.eqb (Message.role x) "assistant"); [| discriminate].
    intros [= <-] m' [<- | Hin] Hr; [lia |].
    rewrite last_assistant_none in E; now elim (E m' Hin).
Qed.

End Text.

(** ** Trimming *)

Section Trim.

Lemma lstrip_idempotent (s : string) : lstrip (lstrip s) = lstrip s.
Proof.
  induction s as [|c s IH]; simpl; [reflexivity |].
  destruct (isspace c) eqn:E; [exact IH |].
  simpl; now rewrite E.
Qed.

(** What is left of a string trimmed on the left does not start with
    whitespace. *)
Lemma lstrip_head (s r : string) (c : ascii) :
  lstrip s = String c r -> isspace c = false.
Proof.
  induction s as [|d s IH]; simpl; [discriminate |].
  destruct (isspace d) eqn:E; [exact IH |].
  now intros [= <- _].
Qed.

Lemma rstrip_idempotent (s : string) : rstrip (rstrip s) = rstrip s.
Proof.
  induction s as [|c s IH]; simpl; [reflexivity |].
  destruct (rstrip s) as [|d r] eqn:E.
  - destruct (isspace c) eqn:Ec; simpl; [reflexivity | now rewrite Ec].
  - change (rstrip (String c (String d r)))
      with (match rstrip (String d r) with
            | EmptyString =>
                if isspace c then EmptyString else String c EmptyString
            | x => String c x
            end).
    now rewrite IH.
Qed.

(** Trimming on the left keeps a string trimmed on the right. *)
Lemma rstrip_lstrip_fixed (t : string) :
  rstrip t = t -> rstrip (lstrip t) = lstrip t.
Proof.
  induction t as [|c t IH]; [reflexivity |].
  intros H; cbn [lstrip].
  destruct (isspace c) eqn:E; [| exact H].
  apply IH.
  simpl in H; rewrite E in H.
  destruct (rstrip t) as [|d r]; [discriminate |].
  now injection H.
Qed.

Lemma strip_idempotent (s : string) : strip (strip s) = strip s.
Proof.
  unfold strip.
  rewrite (rstrip_lstrip_fixed (rstrip s) (rstrip_idempotent s)).
  apply lstrip_idempotent.
Qed.

Lemma lstrip_blank (s : string) : blank s = true -> lstrip s = "".
Proof.
  induction s as [|c s IH]; simpl; [reflexivity |].
  intros H; apply andb_true_iff in H; destruct H as [Hc Hs].
  rewrite Hc; auto.
Qed.

Lemma rstrip_blank (s : string) : blank s = true -> rstrip s = "".
Proof.
  induction s as [|c s IH]; simpl; [reflexivity |].
  intros H; apply andb_true_iff in H; destruct H as [Hc Hs].
  now rewrite (IH Hs), Hc.
Qed.

Lemma strip_blank (s : string) : blank s = true -> strip s = "".
Proof. intros H; unfold strip; now rewrite rstrip_blank. Qed.

Lemma blank_append (a b : string) : blank (a ++ b) = blank a && blank b.
Proof.
  induction a as [|c a IH]; simpl; [reflexivity |].
  now rewrite IH, andb_assoc.
Qed.

Lemma blank_join (vs : list string) :
  (forall v, In v vs -> blank v = true) -> blank (join newline vs) = true.
Proof.
  induction vs as [|v vs IH]; intros H; [reflexivity |].
  destruct vs as [|v' vs]; [apply H; now left |].
  change (join newline (v :: v' :: vs))
    with (v ++ newline ++ join newline (v' :: vs)).
  rewrite !blank_append, (H v (or_introl eq_refl)).
  rewrite IH by (intros x Hx; apply H; now right).
  reflexivity.
Qed.

(** The text values of a content are values of its blocks. *)
Lemma text_values_in (content : list ContentItem.t) (v : string) :
  In v (text_values content) ->
  exists item t, In item content /\ ContentItem.text item = Some t /\
                 TextDetails.value t = Some v.
Proof.
  induction content as [|item rest IH]; simpl; [intros [] |].
  unfold item_text_value at 1.
  destruct (ContentItem.text item) as [t|] eqn:Et.
  - destruct (TextDetails.value t) as [x|] eqn:Ex.
    + destruct (str_truthy x).
      * intros [<- | Hin]; [exists item, t; auto |].
        destruct (IH Hin) as (i & t' & Hi & H); exists i, t'; auto.
      * intros Hin; destruct (IH Hin) as (i & t' & Hi & H);
          exists i, t'; auto.
    + intros Hin; destruct (IH Hin) as (i & t' & Hi & H); exists i, t'; auto.
  - intros Hin; destruct (IH Hin) as (i & t' & Hi & H); exists i, t'; auto.
Qed.

(** The answer read off a message is trimmed. *)
Lemma joined_text_trimmed (m : option Message.t) :
  strip (joined_text m) = joined_text m.
Proof.
  destruct m as [m|]; [apply strip_idempotent | reflexivity].
Qed.

Lemma joined_text_head (m : option Message.t) (c : ascii) (r : string) :
  joined_text m = String c r -> isspace c = false.
Proof.
  destruct m as [m|]; [| discriminate].
  apply lstrip_head.
Qed.

Lemma or_none_str (s s' : string) :
  or_none s = PyStr s' -> s' = s /\ s <> "".
Proof.
  unfold or_none; destruct s; simpl; [discriminate |].
  intros [= <-]; split; [reflexivity | discriminate].
Qed.

Lemma or_none_cases (s : string) :
  or_none s = PyNone \/ or_none s = PyStr s.
Proof. destruct s; [now left | now right]. Qed.

End Trim.

(** ** Reasoning about one request *)

Section Request.
Context {W : Type} (P : Platform W).

Lemma missing_required_nil (env : environ) :
  missing_required env = [] <->
  opt_truthy (environ_get env "PROJECT_CONNECTION_STRING") = true /\
  opt_truthy (environ_get env "BING_RESOURCE_NAME") = true.
Proof.
  unfold missing_required, required_keys; simpl.
  destruct (opt_truthy (environ_get env "PROJECT_CONNECTION_STRING"));
    destruct (opt_truthy (environ_get env "BING_RESOURCE_NAME")); simpl;
    split; intros H; try discriminate; auto; destruct H; discriminate.
Qed.

(** With a missing required value the handler raises at once. *)
Lemma search_unconfigured (env : environ) (query : string) (s : W * Trace) :
  missing_required env <> [] ->
  search P env query s =
  (Raised (EnvironmentError
             ("Missing environment variable(s): "
              ++ join ", " (missing_required env))), s).
Proof.
  unfold search, missing_required, required_keys; simpl.
  destruct (opt_truthy (environ_get env "PROJECT_CONNECTION_STRING"));
    destruct (opt_truthy (environ_get env "BING_RESOURCE_NAME")); simpl;
    intros H; try reflexivity.
  now elim H.
Qed.

(** With both required values present the handler is its guarded block. *)
Lemma search_configured (env : environ) (query : string) :
  missing_required env = [] ->
  search P env query =
  try_except
    (search_body P query
       (environ_get env "PROJECT_CONNECTION_STRING")
       (environ_get env "BING_RESOURCE_NAME")
       (environ_get env "AGENT_NAME")
       (environ_get env "AGENT_INSTRUCTIONS")
       (environ_get_default env "MODEL_DEPLOYMENT_NAME" "gpt-4.1"))
    (fun e => ret (error_payload e)).
Proof.
  intros H; apply missing_required_nil in H; destruct H as [H1 H2].
  unfold search; rewrite H1, H2; reflexivity.
Qed.

(** A request that made a call was configured. *)
Lemma configured_of_trace (env : environ) (query : string) (w w' : W)
    (o : res dict) (tr : Trace) :
  run_search P env query w = (o, w', tr) ->
  tr <> [] ->
  missing_required env = [].
Proof.
  intros Hr Hne.
  destruct (missing_required env) as [|k ks] eqn:E; [reflexivity |].
  unfold run_search in Hr.
  rewrite search_unconfigured in Hr by (rewrite E; discriminate).
  injection Hr as _ _ <-; now elim Hne.
Qed.

(** *** Case analysis of an execution

    [run_request] replays the handler on an arbitrary platform: one case
    per reply of each call the handler reaches. *)

Ltac call_cases H :=
  repeat (match type of H with
  | context [default_credential P ?x] =>
      destruct (default_credential P x) as [[[]|?e] ?w]
  | context [project_client P ?xa ?x] =>
      destruct (project_client P xa x) as [[[]|?e] ?w]
  | context [connections_get P ?xa ?x] =>
      destruct (connections_get P xa x) as [[?conn|?e] ?w]
  | context [list_agents P ?x] =>
      destruct (list_agents P x) as [[?agents|?e] ?w]
  | context [create_agent P ?xa ?xb ?xc ?xd ?xe ?xf ?x] =>
      destruct (create_agent P xa xb xc xd xe xf x) as [[?created|?e] ?w]
  | context [threads_create P ?x] =>
      destruct (threads_create P x) as [[?thread|?e] ?w]
  | context [messages_create P ?xa ?xb ?xc ?x] =>
      destruct (messages_create P xa xb xc x) as [[?posted|?e] ?w]
  | context [runs_create P ?xa ?xb ?x] =>
      destruct (runs_create P xa xb x) as [[?run|?e] ?w]
  | context [runs_get P ?xa ?xb ?x] =>
      destruct (runs_get P xa xb x) as [[?refreshed|?e] ?w]
  | context [messages_list P ?xa ?x] =>
      destruct (messages_list P xa x) as [[?listed|?e] ?w]
  | context [find (fun a => opt_str_eqb _ _) ?l] =>
      destruct (find (fun a => opt_str_eqb (Agent.name a) _) l)
        as [?found|] eqn:?
  | context [String.eqb (Run.status ?r) "failed"] =>
      destruct (String.eqb (Run.status r) "failed") eqn:?
  end; cbn [fst snd app] in H).

Ltac run_request Hc H :=
  unfold run_search in H;
  rewrite (search_configured _ _ Hc) in H;
  unfold search_body, finish, try_except, bind, invoke, ret in H;
  call_cases H;
  injection H as <- <- <-.

(** Membership of an event in a trace whose calls are known. *)
Ltac in_trace :=
  repeat match goal with
  | H : In _ (_ :: _) |- _ =>
      destruct H as [H | H];
      [ try discriminate H; inversion H; clear H; subst | ]
  | H : In _ [] |- _ => destruct H
  end.

(** ** Configuration errors (C1) *)

(** C1, as amended. When PROJECT_CONNECTION_STRING or BING_RESOURCE_NAME
    is unset or empty, the handler raises a configuration error whose
    message names exactly the missing required keys; the error is raised
    before any call is made (the trace is empty and the platform is left
    as it was) and it leaves the handler as an exception: it is not turned
    into an error payload. *)
Theorem missing_config_raises_before_any_call
    (env : environ) (query : string) (w : W) :
  missing_required env <> [] ->
  run_search P env query w =
    (Raised (EnvironmentError
               ("Missing environment variable(s): "
                ++ join ", " (missing_required env))), w, [])
  /\ forall k, In k (missing_required env) <->
       In k required_keys /\
       (environ_get env k = None \/ environ_get env k = Some "").
Proof.
  intros Hm; split.
  - unfold run_search; now rewrite (search_unconfigured env query _ Hm).
  - intros k; unfold missing_required; rewrite filter_In.
    assert (Ht : negb (opt_truthy (environ_get env k)) = true <->
                 (environ_get env k = None \/ environ_get env k = Some "")).
    { destruct (environ_get env k) as [[|c v]|]; simpl; split; intros H;
        auto; try discriminate; destruct H; discriminate. }
    now rewrite Ht.
Qed.

(** ** The outer exception boundary (C2) *)

(** C2, as amended. With both required values present, no exception
    leaves the handler: it always returns a payload. An exception raised
    by any call other than the run-status refresh ends the request at that
    call (it is the last call of the trace) and the payload is the generic
    error payload holding only the exception's string. No call is issued
    twice. (The configuration error of step 1 is raised outside the
    guarded block, and an exception of the refresh call is absorbed by the
    refresh's own handler.) *)
Theorem guarded_block_never_raises
    (env : environ) (query : string) (w w' : W) (o : res dict) (tr : Trace) :
  missing_required env = [] ->
  run_search P env query w = (o, w', tr) ->
  (exists d, o = Returned d) /\
  (forall c e, In (c, ReplyRaised e) tr -> is_runs_get c = false ->
     o = Returned (error_payload e) /\
     exists before, tr = (before ++ [(c, ReplyRaised e)])%list) /\
  NoDup (calls tr).
Proof.
  intros Hc Hr; run_request Hc Hr.
  all: split; [eauto | split].
  all: try (intros c ? Hin Hng; in_trace; try discriminate Hng;
            (split;
             [ reflexivity
             | match goal with
               | |- exists b, ?l = _ => exists (removelast l); reflexivity
               end ])).
  all: unfold calls; cbn [map fst];
    repeat (constructor; [cbn [In]; intuition discriminate |]);
    constructor.
Qed.

(** ** Reading the answer off the thread (C3, C7) *)

(** The payload of a request whose thread listing was returned. *)
Lemma listed_outcome
    (env : environ) (query : string) (w w' : W) (o : res dict) (tr : Trace)
    (tid : string) (listed : list Message.t) :
  run_search P env query w = (o, w', tr) ->
  In (CallMessagesList tid, ReplyMessages listed) tr ->
  exists agent thread run,
    observed_run tr = Some run /\
    Run.status run <> "failed" /\
    o = Returned
          [("query", PyStr query);
           ("agent_id", PyStr (Agent.id agent));
           ("thread_id", PyStr (Thread.id thread));
           ("run_id", PyStr (Run.id run));
           ("run_status", PyStr (Run.status run));
           ("assistant_response",
            or_none (joined_text (last_assistant listed)))].
Proof.
  intros Hr Hin.
  assert (Hc : missing_required env = [])
    by (apply (configured_of_trace _ _ _ _ _ _ Hr); intros ->; destruct Hin).
  run_request Hc Hr; in_trace.
  all: rewrite find_rev_last_assistant, collect_text_joined.
  all: do 3 eexists; split; [reflexivity | split; [| reflexivity]].
  all: now apply String.eqb_neq.
Qed.

(** C3, as amended. When the thread listing is returned (the run status
    the handler goes by is then not "failed"), the handler selects the last
    assistant-authored message of the listing in the order the platform
    returned it, joins the values of its text-bearing content blocks with
    newlines, trims the result and returns it as assistant_response (null
    when empty). The selected message is the most recent assistant
    message when the listing is in creation order, oldest first. *)
Theorem assistant_response_from_last_listed
    (env : environ) (query : string) (w w' : W) (o : res dict) (tr : Trace)
    (tid : string) (listed : list Message.t) :
  run_search P env query w = (o, w', tr) ->
  In (CallMessagesList tid, ReplyMessages listed) tr ->
  (exists run, observed_run tr = Some run /\ Run.status run <> "failed" /\
               payload_field "run_status" o = Some (PyStr (Run.status run)))
  /\ payload_field "assistant_response" o
     = Some (or_none (joined_text (last_assistant listed)))
  /\ forall m, last_assistant listed = Some m ->
       In m listed /\ Message.role m = "assistant" /\
       (chronological listed ->
        forall m', In m' listed -> Message.role m' = "assistant" ->
                   (Message.created_at m' <= Message.created_at m)%Z).
Proof.
  intros Hr Hin.
  destruct (listed_outcome _ _ _ _ _ _ _ _ Hr Hin)
    as (agent & thread & run & Hobs & Hst & ->).
  split; [exists run; auto | split; [reflexivity |]].
  intros m Hm; destruct (last_assistant_in _ _ Hm) as [Hi Hrole].
  repeat split; auto.
  intros Hch; now apply last_assistant_newest.
Qed.




(** ** A failed run (C4) *)

(** C4. When the run status the handler goes by (refreshed, or stale when
    the refresh raised) is "failed", the handler returns exactly the query,
    the status and the string of the run's last error; the payload has no
    assistant_response field and the thread's messages are not listed. *)
Theorem failed_run_returns_early
    (env : environ) (query : string) (w w' : W) (o : res dict) (tr : Trace)
    (run : Run.t) :
  run_search P env query w = (o, w', tr) ->
  observed_run tr = Some run ->
  Run.status run = "failed" ->
  o = Returned
        [("query", PyStr query);
         ("status", PyStr "failed");
         ("error", PyStr (str (match Run.last_error run with
                               | Some v => v
                               | None => PyStr "Unknown error"
                               end)))]
  /\ payload_field "assistant_response" o = None
  /\ forall c, In c (calls tr) -> is_messages_list c = false.
Proof.
  intros Hr Hobs Hst.
  assert (Hc : missing_required env = [])
    by (apply (configured_of_trace _ _ _ _ _ _ Hr); intros ->; discriminate).
  run_request Hc Hr.
  all: unfold observed_run in Hobs; cbn [fold_left snd] in Hobs;
    try discriminate Hobs; injection Hobs as ->.
  all: try (rewrite Hst in *; discriminate).
  all: rewrite Hst.
  all: split; [reflexivity | split; [reflexivity |]].
  all: intros c Hc'; unfold calls in Hc'; cbn [map fst] in Hc'; in_trace;
    reflexivity.
Qed.

(** ** Resolving the agent (C5, C6) *)

Lemma opt_str_eqb_eq (a b : option string) :
  opt_str_eqb a b = true <-> a = b.
Proof.
  destruct a as [x|], b as [y|]; simpl; try rewrite String.eqb_eq;
    split; intros H; try discriminate; try reflexivity; congruence.
Qed.

(** The scan for the configured name stops at the first agent bearing it. *)
Lemma find_first_named (name : option string) (before after : list Agent.t)
    (a : Agent.t) :
  Agent.name a = name ->
  (forall b, In b before -> Agent.name b <> name) ->
  find (fun a => opt_str_eqb (Agent.name a) name) (before ++ a :: after)%list
  = Some a.
Proof.
  intros Ha Hb; induction before as [|b before IH]; simpl.
  - now rewrite (proj2 (opt_str_eqb_eq _ _) Ha).
  - destruct (opt_str_eqb (Agent.name b) name) eqn:E.
    + apply opt_str_eqb_eq in E; now elim (Hb b (or_introl eq_refl)).
    + apply IH; intros b' Hb'; apply Hb; now right.
Qed.

Lemma find_no_named (name : option string) (agents : list Agent.t) :
  (forall a, In a agents -> Agent.name a <> name) ->
  find (fun a => opt_str_eqb (Agent.name a) name) agents = None.
Proof.
  intros H; induction agents as [|a agents IH]; simpl; [reflexivity |].
  destruct (opt_str_eqb (Agent.name a) name) eqn:E.
  - apply opt_str_eqb_eq in E; now elim (H a (or_introl eq_refl)).
  - apply IH; intros b Hb; apply H; now right.
Qed.

(** Use what is known of the agent listing in the lookup's result. *)
Ltac resolve_lookup L :=
  match goal with
  | E : find _ _ = _ |- _ =>
      rewrite L in E by assumption;
      first [discriminate E | injection E as <-]
  | _ => idtac
  end.

(** C5. When the agent listing holds an agent whose name equals the
    configured agent name, the handler never invokes agent creation; it
    selects the first such agent of the listing, starts the run with that
    agent's id and returns that id as agent_id in the success payload. *)
Theorem existing_agent_is_reused
    (env : environ) (query : string) (w w' : W) (o : res dict) (tr : Trace)
    (before after : list Agent.t) (a : Agent.t) :
  run_search P env query w = (o, w', tr) ->
  In (CallListAgents, ReplyAgents (before ++ a :: after)%list) tr ->
  Agent.name a = environ_get env "AGENT_NAME" ->
  (forall b, In b before -> Agent.name b <> environ_get env "AGENT_NAME") ->
  (forall c, In c (calls tr) -> is_create_agent c = false) /\
  (forall tid aid reply,
     In (CallRunsCreate tid aid, reply) tr -> aid = Agent.id a) /\
  (forall v, payload_field "agent_id" o = Some v -> v = PyStr (Agent.id a)) /\
  (forall tid listed,
     In (CallMessagesList tid, ReplyMessages listed) tr ->
     payload_field "agent_id" o = Some (PyStr (Agent.id a))).
Proof.
  intros Hr Hin Ha Hb.
  assert (Hc : missing_required env = [])
    by (apply (configured_of_trace _ _ _ _ _ _ Hr); intros ->; destruct Hin).
  run_request Hc Hr; in_trace.
  all: resolve_lookup find_first_named.
  all: repeat split.
  all: try (intros c Hcall; unfold calls in Hcall; cbn [map fst] in Hcall;
            in_trace; reflexivity).
  all: try (intros tid aid reply Hrun; in_trace; reflexivity).
  all: try (intros v Hv; cbn in Hv; first [discriminate Hv | now injection Hv]).
  all: intros tid lst Hl; in_trace; reflexivity.
Qed.

(** C6. When no listed agent bears the configured agent name, the handler
    creates an agent, once, with the configured model (gpt-4.1 when
    MODEL_DEPLOYMENT_NAME is unset), the configured name and instructions,
    the search tool bound to the resolved connection, the preview-feature
    header and temperature 0; the run is started with the created agent. *)
Theorem missing_agent_is_created
    (env : environ) (query : string) (w w' : W) (o : res dict) (tr : Trace)
    (agents : list Agent.t) :
  run_search P env query w = (o, w', tr) ->
  In (CallListAgents, ReplyAgents agents) tr ->
  (forall a, In a agents -> Agent.name a <> environ_get env "AGENT_NAME") ->
  exists conn reply,
    let creation :=
      CallCreateAgent
        (match environ_get env "MODEL_DEPLOYMENT_NAME" with
         | Some model => model
         | None => "gpt-4.1"
         end)
        (environ_get env "AGENT_NAME")
        (environ_get env "AGENT_INSTRUCTIONS")
        [ToolDefinition.mk "bing_grounding" (Connection.id conn)]
        [("x-ms-enable-preview", "true")]
        0%Z in
    In (CallConnectionsGet (environ_get env "BING_RESOURCE_NAME"),
        ReplyConnection conn) tr /\
    In (creation, reply) tr /\
    filter is_create_agent (calls tr) = [creation] /\
    (forall tid aid r, In (CallRunsCreate tid aid, r) tr ->
       exists created, reply = ReplyAgent created /\ aid = Agent.id created).
Proof.
  intros Hr Hin Hnone.
  assert (Hc : missing_required env = [])
    by (apply (configured_of_trace _ _ _ _ _ _ Hr); intros ->; destruct Hin).
  run_request Hc Hr; in_trace.
  all: resolve_lookup find_no_named.
  all: do 2 eexists; cbn zeta; split; [cbn [In]; tauto |].
  all: split; [cbn [In]; unfold environ_get_default, bing_tool_definitions;
               tauto |].
  all: split; [reflexivity |].
  all: intros tid aid r Hrun; in_trace; eexists; split; reflexivity.
Qed.

(** ** A failing status refresh (C8) *)

(** C8. When the status refresh raises, the request does not fail on it:
    the refresh is not repeated, the handler goes by the run as it was
    created, returns the run-failure payload when that status is "failed",
    and otherwise lists the thread's messages and returns the created
    run's id and status as run_id and run_status. *)
Theorem refresh_failure_keeps_snapshot
    (env : environ) (query : string) (w w' : W) (o : res dict) (tr : Trace)
    (tid aid tid' rid : string) (run : Run.t) (e : exn) :
  run_search P env query w = (o, w', tr) ->
  In (CallRunsCreate tid aid, ReplyRun run) tr ->
  In (CallRunsGet tid' rid, ReplyRaised e) tr ->
  observed_run tr = Some run /\
  filter is_runs_get (calls tr) = [CallRunsGet tid (Run.id run)] /\
  (Run.status run = "failed" ->
     o = Returned
           [("query", PyStr query);
            ("status", PyStr (Run.status run));
            ("error", PyStr (str (match Run.last_error run with
                                  | Some v => v
                                  | None => PyStr "Unknown error"
                                  end)))]) /\
  (Run.status run <> "failed" ->
     exists reply,
       In (CallMessagesList tid, reply) tr /\
       (forall e', reply = ReplyRaised e' -> o = Returned (error_payload e')) /\
       (forall listed, reply = ReplyMessages listed ->
          o = Returned
                [("query", PyStr query);
                 ("agent_id", PyStr aid);
                 ("thread_id", PyStr tid);
                 ("run_id", PyStr (Run.id run));
                 ("run_status", PyStr (Run.status run));
                 ("assistant_response",
                  or_none (joined_text (last_assistant listed)))])).
Proof.
  intros Hr Hcreate Hget.
  assert (Hc : missing_required env = [])
    by (apply (configured_of_trace _ _ _ _ _ _ Hr); intros ->;
        destruct Hcreate).
  run_request Hc Hr; in_trace.
  all: match goal with
       | E : String.eqb _ _ = true |- _ => apply String.eqb_eq in E
       | E : String.eqb _ _ = false |- _ => apply String.eqb_neq in E
       end.
  all: split; [reflexivity | split; [reflexivity | split]].
  all: try (intros Hst; congruence).
  all: try (intros _; reflexivity).
  all: intros _; eexists; split; [cbn [In]; tauto |].
  all: split; [intros e' [= <-] || intros e' [=] |
               intros lst [= <-] || intros lst [=]].
  all: try reflexivity.
  all: now rewrite find_rev_last_assistant, collect_text_joined.
Qed.

(** ** Two requests in a row (C9) *)

(** A request that created a thread did so once and returns that thread's
    id, if it returns a thread id at all. *)
Lemma one_thread_per_request
    (env : environ) (query : string) (w w' : W) (o : res dict) (tr : Trace)
    (t : Thread.t) :
  run_search P env query w = (o, w', tr) ->
  In (CallThreadsCreate, ReplyThread t) tr ->
  filter is_threads_create (calls tr) = [CallThreadsCreate] /\
  forall v, payload_field "thread_id" o = Some v -> v = PyStr (Thread.id t).
Proof.
  intros Hr Hin.
  assert (Hc : missing_required env = [])
    by (apply (configured_of_trace _ _ _ _ _ _ Hr); intros ->; destruct Hin).
  run_request Hc Hr; in_trace.
  all: split; [reflexivity |].
  all: intros v Hv; cbn in Hv; first [discriminate Hv | now injection Hv].
Qed.

(** With a named agent listed, a request creates no agent and reaches the
    thread creation. *)
Lemma reuse_reaches_thread
    (env : environ) (query : string) (w w' : W) (o : res dict) (tr : Trace)
    (agents : list Agent.t) :
  run_search P env query w = (o, w', tr) ->
  In (CallListAgents, ReplyAgents agents) tr ->
  (exists a, In a agents /\ Agent.name a = environ_get env "AGENT_NAME") ->
  (forall c, In c (calls tr) -> is_create_agent c = false) /\
  filter is_threads_create (calls tr) = [CallThreadsCreate].
Proof.
  intros Hr Hin (a & Ha & Hname).
  assert (Hc : missing_required env = [])
    by (apply (configured_of_trace _ _ _ _ _ _ Hr); intros ->; destruct Hin).
  run_request Hc Hr; in_trace.
  all: try match goal with
       | E : find _ _ = None |- _ =>
           exfalso; apply (find_none _ _ E) in Ha;
           apply (proj2 (opt_str_eqb_eq _ _)) in Hname; congruence
       end.
  all: split; [| reflexivity].
  all: intros c Hcall; unfold calls in Hcall; cbn [map fst] in Hcall;
    in_trace; reflexivity.
Qed.

(** C9. Two requests in a row with the same query, each finding an agent
    of the configured name in its listing: neither invokes agent creation
    (the handler has no call that updates or deletes an agent), each
    issues exactly one thread creation, and each returns the id of the
    thread created for it, so the two thread ids differ as the ids the
    platform assigned to the two threads do. *)
Theorem sequential_requests_fresh_threads
    (env : environ) (query : string) (w0 w1 w2 : W) (o1 o2 : res dict)
    (tr1 tr2 : Trace) (agents1 agents2 : list Agent.t) :
  run_search P env query w0 = (o1, w1, tr1) ->
  run_search P env query w1 = (o2, w2, tr2) ->
  In (CallListAgents, ReplyAgents agents1) tr1 ->
  In (CallListAgents, ReplyAgents agents2) tr2 ->
  (exists a, In a agents1 /\ Agent.name a = environ_get env "AGENT_NAME") ->
  (exists a, In a agents2 /\ Agent.name a = environ_get env "AGENT_NAME") ->
  (forall t1 t2,
     In (CallThreadsCreate, ReplyThread t1) tr1 ->
     In (CallThreadsCreate, ReplyThread t2) tr2 ->
     Thread.id t1 <> Thread.id t2) ->
  (forall c, In c (calls (tr1 ++ tr2)%list) -> is_create_agent c = false) /\
  filter is_threads_create (calls tr1) = [CallThreadsCreate] /\
  filter is_threads_create (calls tr2) = [CallThreadsCreate] /\
  (forall v1 v2,
     payload_field "thread_id" o1 = Some v1 ->
     payload_field "thread_id" o2 = Some v2 ->
     v1 <> v2).
Proof.
  intros Hr1 Hr2 Hl1 Hl2 Ha1 Ha2 Hfresh.
  destruct (reuse_reaches_thread _ _ _ _ _ _ _ Hr1 Hl1 Ha1) as [Hn1 Ht1].
  destruct (reuse_reaches_thread _ _ _ _ _ _ _ Hr2 Hl2 Ha2) as [Hn2 Ht2].
  split; [| split; [exact Ht1 | split; [exact Ht2 |]]].
  - intros c Hcall; unfold calls in Hcall;
      rewrite map_app, in_app_iff in Hcall.
    destruct Hcall; [now apply Hn1 | now apply Hn2].
  - intros v1 v2 Hv1 Hv2.
    assert (Hex : forall tr, filter is_threads_create (calls tr)
                             = [CallThreadsCreate] ->
                  exists r, In (CallThreadsCreate, r) tr).
    { intros tr Hf.
      assert (Hi : In CallThreadsCreate (filter is_threads_create (calls tr)))
        by (rewrite Hf; now left).
      apply filter_In in Hi; destruct Hi as [Hi _].
      unfold calls in Hi; apply in_map_iff in Hi.
      destruct Hi as ([c r] & Hc & Hi); simpl in Hc; subst c; eauto. }
    destruct (Hex _ Ht1) as [r1 Hi1], (Hex _ Ht2) as [r2 Hi2].
    assert (Hreply : forall o w w' tr r v,
              run_search P env query w = (o, w', tr) ->
              In (CallThreadsCreate, r) tr ->
              payload_field "thread_id" o = Some v ->
              exists t, r = ReplyThread t).
    { clear; intros o w w' tr r v Hr Hin Hv.
      assert (Hc : missing_required env = [])
        by (apply (configured_of_trace _ _ _ _ _ _ Hr); intros ->;
            destruct Hin).
      run_request Hc Hr; in_trace; eauto; cbn in Hv; discriminate Hv. }
    destruct (Hreply _ _ _ _ _ _ Hr1 Hi1 Hv1) as [t1 ->].
    destruct (Hreply _ _ _ _ _ _ Hr2 Hi2 Hv2) as [t2 ->].
    destruct (one_thread_per_request _ _ _ _ _ _ _ Hr1 Hi1) as [_ E1].
    destruct (one_thread_per_request _ _ _ _ _ _ _ Hr2 Hi2) as [_ E2].
    rewrite (E1 _ Hv1), (E2 _ Hv2); intros [= E].
    now apply (Hfresh t1 t2).
Qed.

(** ** Optional settings (C10) *)

(** C10, as amended. Only PROJECT_CONNECTION_STRING and BING_RESOURCE_NAME
    are validated: with these two present the handler raises no
    configuration error, whatever AGENT_NAME and AGENT_INSTRUCTIONS are, and
    proceeds to the remote calls; agent creation receives the two settings
    as they are, null when unset. With AGENT_NAME unset the lookup compares
    agent names with null: an agent that has a name is never reused (the
    run is started for a listed agent whose name is null, or for a newly
    created one), and when every listed agent has a name an agent is
    created. *)
Theorem optional_settings_not_validated
    (env : environ) (query : string) (w w' : W) (o : res dict) (tr : Trace) :
  missing_required env = [] ->
  run_search P env query w = (o, w', tr) ->
  (exists d, o = Returned d) /\
  (exists reply rest, tr = (CallDefaultAzureCredential, reply) :: rest) /\
  (forall model name instructions tools headers temperature reply,
     In (CallCreateAgent model name instructions tools headers temperature,
         reply) tr ->
     name = environ_get env "AGENT_NAME" /\
     instructions = environ_get env "AGENT_INSTRUCTIONS") /\
  (forall agents,
     In (CallListAgents, ReplyAgents agents) tr ->
     environ_get env "AGENT_NAME" = None ->
     (forall tid aid r, In (CallRunsCreate tid aid, r) tr ->
        (exists a, In a agents /\ Agent.name a = None /\ Agent.id a = aid) \/
        (exists c created,
           In (c, ReplyAgent created) tr /\ is_create_agent c = true /\
           Agent.id created = aid)) /\
     ((forall a, In a agents -> Agent.name a <> None) ->
      exists c, In c (calls tr) /\ is_create_agent c = true)).
Proof.
  intros Hc Hr; run_request Hc Hr.
  all: split; [eauto | split; [eauto | split]].
  all: try (intros model name instr tools headers temp reply Hin; in_trace;
            split; reflexivity).
  all: intros lst Hin Hunset; in_trace.
  all: split.
  all: try (intros tid aid r Hrun; in_trace).
  all: try match goal with
       | E : find _ _ = Some ?a |- _ \/ _ =>
           left; exists a; apply find_some in E; destruct E as [Hi E];
           apply opt_str_eqb_eq in E; rewrite Hunset in E; auto
       | E : find _ _ = None |- _ \/ _ =>
           right; do 2 eexists; split; [cbn [In]; tauto | split; reflexivity]
       end.
  all: intros Hnamed.
  all: try match goal with
       | E : find _ _ = Some ?a |- _ =>
           exfalso; apply find_some in E; destruct E as [Hi E];
           apply opt_str_eqb_eq in E; rewrite Hunset in E;
           now elim (Hnamed _ Hi)
       end.
  all: try (in_trace; fail).
  all: exists (CallCreateAgent
                 (environ_get_default env "MODEL_DEPLOYMENT_NAME" "gpt-4.1")
                 (environ_get env "AGENT_NAME")
                 (environ_get env "AGENT_INSTRUCTIONS")
                 (bing_tool_definitions (Connection.id conn))
                 [("x-ms-enable-preview", "true")] 0%Z).
  all: split; [unfold calls; cbn [map fst In]; tauto | reflexivity].
Qed.

(** ** The script of a request *)

(** A request either was configured or made no call and raised. *)
Lemma request_cases
    (env : environ) (query : string) (w w' : W) (o : res dict) (tr : Trace) :
  run_search P env query w = (o, w', tr) ->
  missing_required env = [] \/ (tr = [] /\ exists e, o = Raised e).
Proof.
  intros Hr.
  destruct (missing_required env) as [|k ks] eqn:E; [now left | right].
  unfold run_search in Hr.
  rewrite search_unconfigured in Hr by (rewrite E; discriminate).
  injection Hr as <- _ <-; eauto.
Qed.

(** X1. The calls of a request follow the script of main.py: they are
    issued in the script's order, each at most once, and no step other than
    the agent creation is skipped on the way to a later one. *)
Theorem calls_follow_the_script (env : environ) (query : string) (w : W) :
  StronglySorted lt
    (map rank (calls (trace_of (run_search P env query w)))) /\
  forall c k,
    In c (calls (trace_of (run_search P env query w))) ->
    (k < rank c)%nat -> k <> 4%nat ->
    In k (map rank (calls (trace_of (run_search P env query w)))).
Proof.
  destruct (run_search P env query w) as [[o w'] tr] eqn:Hr.
  unfold trace_of; cbn [snd].
  destruct (request_cases _ _ _ _ _ _ Hr) as [Hc | [-> _]];
    [| split; [constructor | intros c k []]].
  run_request Hc Hr.
  all: unfold calls; cbn [map fst rank]; split;
    [repeat constructor |].
  all: intros c k Hin Hk Hne; in_trace; cbn [rank] in Hk; cbn [In]; lia.
Qed.

(** X2. Every later call of a request that names a thread names the thread
    this request created, the refresh asks for the run this request
    created, and a returned thread_id is that thread's id. *)
Theorem calls_name_the_created_thread
    (env : environ) (query : string) (w w' : W) (o : res dict) (tr : Trace)
    (t : Thread.t) :
  run_search P env query w = (o, w', tr) ->
  In (CallThreadsCreate, ReplyThread t) tr ->
  (forall tid aid r, In (CallRunsCreate tid aid, r) tr -> tid = Thread.id t) /\
  (forall tid rid r,
     In (CallRunsGet tid rid, r) tr ->
     tid = Thread.id t /\
     exists aid run,
       In (CallRunsCreate (Thread.id t) aid, ReplyRun run) tr /\
       rid = Run.id run) /\
  (forall tid r, In (CallMessagesList tid, r) tr -> tid = Thread.id t) /\
  (forall v, payload_field "thread_id" o = Some v -> v = PyStr (Thread.id t)).
Proof.
  intros Hr Hin.
  assert (Hc : missing_required env = [])
    by (apply (configured_of_trace _ _ _ _ _ _ Hr); intros ->; destruct Hin).
  run_request Hc Hr; in_trace.
  all: split; [intros tid aid r Hi; in_trace; reflexivity | split; [| split]].
  all: try (intros tid rid r Hi; in_trace;
            (split; [reflexivity |]); do 2 eexists;
            (split; [cbn [In]; tauto | reflexivity])).
  all: try (intros tid r Hi; in_trace; reflexivity).
  all: intros v Hv; cbn in Hv; first [discriminate Hv | now injection Hv].
Qed.

(** X3. Once the thread is created the handler posts one message to it,
    with role "user" and the query, unchanged, as content. *)
Theorem query_posted_verbatim
    (env : environ) (query : string) (w w' : W) (o : res dict) (tr : Trace)
    (t : Thread.t) :
  run_search P env query w = (o, w', tr) ->
  In (CallThreadsCreate, ReplyThread t) tr ->
  filter is_messages_create (calls tr)
  = [CallMessagesCreate (Thread.id t) "user" query].
Proof.
  intros Hr Hin.
  assert (Hc : missing_required env = [])
    by (apply (configured_of_trace _ _ _ _ _ _ Hr); intros ->; destruct Hin).
  run_request Hc Hr; in_trace; reflexivity.
Qed.

(** X4. When the refresh returns a run, that run alone decides: its status
    is the one tested against "failed", and its id and status are the
    run_id and run_status of the success payload, whatever the run looked
    like when it was created. *)
Theorem refreshed_run_decides
    (env : environ) (query : string) (w w' : W) (o : res dict) (tr : Trace)
    (tid rid : string) (refreshed : Run.t) :
  run_search P env query w = (o, w', tr) ->
  In (CallRunsGet tid rid, ReplyRun refreshed) tr ->
  observed_run tr = Some refreshed /\
  (Run.status refreshed = "failed" ->
     o = Returned
           [("query", PyStr query);
            ("status", PyStr "failed");
            ("error", PyStr (str (match Run.last_error refreshed with
                                  | Some v => v
                                  | None => PyStr "Unknown error"
                                  end)))]) /\
  (Run.status refreshed <> "failed" ->
     payload_field "status" o = None /\
     forall tid' listed,
       In (CallMessagesList tid', ReplyMessages listed) tr ->
       payload_field "run_id" o = Some (PyStr (Run.id refreshed)) /\
       payload_field "run_status" o = Some (PyStr (Run.status refreshed))).
Proof.
  intros Hr Hin.
  assert (Hc : missing_required env = [])
    by (apply (configured_of_trace _ _ _ _ _ _ Hr); intros ->; destruct Hin).
  run_request Hc Hr; in_trace.
  all: match goal with
       | E : String.eqb _ _ = true |- _ => apply String.eqb_eq in E
       | E : String.eqb _ _ = false |- _ => apply String.eqb_neq in E
       end.
  all: split; [reflexivity | split].
  all: try (intros Hst; congruence).
  all: try (intros Hst; rewrite Hst; reflexivity).
  all: intros _; split; [reflexivity |].
  all: intros tid' lst Hl; in_trace; split; reflexivity.
Qed.

(** X5. Any status other than the exact string "failed" sends the handler
    on to list the thread's messages, once: a raising listing gives the
    generic error payload, a returned listing the success payload with
    that status as run_status. *)
Theorem unfailed_run_lists_messages
    (env : environ) (query : string) (w w' : W) (o : res dict) (tr : Trace)
    (run : Run.t) :
  run_search P env query w = (o, w', tr) ->
  observed_run tr = Some run ->
  Run.status run <> "failed" ->
  exists tid reply,
    filter is_messages_list (calls tr) = [CallMessagesList tid] /\
    In (CallMessagesList tid, reply) tr /\
    (forall e, reply = ReplyRaised e -> o = Returned (error_payload e)) /\
    (forall listed, reply = ReplyMessages listed ->
       exists d, o = Returned d /\ dict_keys d = success_keys /\
                 dict_get "run_status" d = Some (PyStr (Run.status run))).
Proof.
  intros Hr Hobs Hst.
  assert (Hc : missing_required env = [])
    by (apply (configured_of_trace _ _ _ _ _ _ Hr); intros ->; discriminate).
  run_request Hc Hr.
  all: unfold observed_run in Hobs; cbn [fold_left snd] in Hobs;
    try discriminate Hobs; injection Hobs as ->.
  all: try match goal with
       | E : String.eqb _ _ = true |- _ =>
           apply String.eqb_eq in E; now elim Hst
       end.
  all: do 2 eexists; split; [reflexivity | split; [cbn [In]; tauto |]].
  all: split; [intros e' [= <-] || intros e' [=] |
               intros lst [= <-] || intros lst [=]].
  all: try reflexivity.
  all: eexists; split; [reflexivity | split; reflexivity].
Qed.

(** X6. A configured request answers with one of three bodies: the single
    error field; query, status and error, the status being "failed"; or
    the six success fields, with a run_status other than "failed". The
    last two echo the query. *)
Theorem payload_shapes
    (env : environ) (query : string) (w w' : W) (o : res dict) (tr : Trace) :
  missing_required env = [] ->
  run_search P env query w = (o, w', tr) ->
  exists d,
    o = Returned d /\
    (dict_keys d = error_keys \/
     (dict_keys d = failure_keys /\
      dict_get "query" d = Some (PyStr query) /\
      dict_get "status" d = Some (PyStr "failed")) \/
     (dict_keys d = success_keys /\
      dict_get "query" d = Some (PyStr query) /\
      exists st, dict_get "run_status" d = Some (PyStr st) /\
                 st <> "failed")).
Proof.
  intros Hc Hr; run_request Hc Hr.
  all: eexists; split; [reflexivity |].
  all: try (left; reflexivity).
  all: match goal with
       | E : String.eqb _ _ = true |- _ =>
           apply String.eqb_eq in E; right; left; cbn; rewrite E; auto
       | E : String.eqb _ _ = false |- _ =>
           apply String.eqb_neq in E; right; right;
           (split; [reflexivity | split; [reflexivity |]]);
           eexists; split; [reflexivity | exact E]
       end.
Qed.

(** ** The shape of the answer *)

(** The assistant_response of any payload is read off some listing. *)
Lemma answer_of_listing
    (env : environ) (query : string) (w w' : W) (o : res dict) (tr : Trace)
    (v : value) :
  run_search P env query w = (o, w', tr) ->
  payload_field "assistant_response" o = Some v ->
  exists m, v = or_none (joined_text m).
Proof.
  intros Hr Hv.
  destruct (request_cases _ _ _ _ _ _ Hr) as [Hc | [_ [e ->]]];
    [| discriminate Hv].
  run_request Hc Hr; cbn in Hv; try discriminate Hv.
  all: injection Hv as <-; rewrite collect_text_joined; eauto.
Qed.

(** X7. An assistant_response is null or a string that is not empty and
    carries no whitespace at either end: trimming it again changes
    nothing and its first character is not whitespace. *)
Theorem assistant_response_is_trimmed
    (env : environ) (query : string) (w w' : W) (o : res dict) (tr : Trace)
    (v : value) :
  run_search P env query w = (o, w', tr) ->
  payload_field "assistant_response" o = Some v ->
  v = PyNone \/
  exists s, v = PyStr s /\ s <> "" /\ strip s = s /\
            forall c r, s = String c r -> isspace c = false.
Proof.
  intros Hr Hv.
  destruct (answer_of_listing _ _ _ _ _ _ _ Hr Hv) as [m ->].
  destruct (joined_text m) as [|c r] eqn:Ej; [now left | right].
  exists (String c r); split; [reflexivity | split; [discriminate | split]].
  - rewrite <- Ej; apply joined_text_trimmed.
  - intros c' r' [= <- <-]; apply (joined_text_head m c r Ej).
Qed.

(** X8. When every text value of the selected assistant message is made
    of whitespace only, the answer is null: blank text counts as no
    text. *)
Theorem blank_answer_is_null
    (env : environ) (query : string) (w w' : W) (o : res dict) (tr : Trace)
    (tid : string) (listed : list Message.t) (m : Message.t) :
  run_search P env query w = (o, w', tr) ->
  In (CallMessagesList tid, ReplyMessages listed) tr ->
  last_assistant listed = Some m ->
  (forall item t v,
     In item (Message.content m) ->
     ContentItem.text item = Some t ->
     TextDetails.value t = Some v ->
     blank v = true) ->
  payload_field "assistant_response" o = Some PyNone.
Proof.
  intros Hr Hin Hm Hblank.
  destruct (listed_outcome _ _ _ _ _ _ _ _ Hr Hin)
    as (agent & thread & run & _ & _ & ->).
  cbn; rewrite Hm; unfold joined_text.
  rewrite strip_blank; [reflexivity |].
  apply blank_join; intros v Hv.
  destruct (text_values_in _ _ Hv) as (item & t & Hi & Ht & Hval).
  exact (Hblank item t v Hi Ht Hval).
Qed.

(** X9. The handler waits exactly when it has started a run: a created
    run is followed by one wait of 7 seconds, and a request that ends
    before the run is created returns without waiting. *)
Theorem wait_follows_run_creation
    (env : environ) (query : string) (w : W) :
  (forall tid aid run,
     In (CallRunsCreate tid aid, ReplyRun run)
        (trace_of (run_search P env query w)) ->
     In (CallSleep 7, ReplyDone) (trace_of (run_search P env query w))) /\
  (forall seconds r,
     In (CallSleep seconds, r) (trace_of (run_search P env query w)) ->
     seconds = 7%Z /\ r = ReplyDone /\
     exists tid aid run,
       In (CallRunsCreate tid aid, ReplyRun run)
          (trace_of (run_search P env query w))).
Proof.
  destruct (run_search P env query w) as [[o w'] tr] eqn:Hr.
  unfold trace_of; cbn [snd].
  destruct (request_cases _ _ _ _ _ _ Hr) as [Hc | [-> _]];
    [| split; [intros ? ? ? [] | intros ? ? []]].
  run_request Hc Hr.
  all: split;
    [ intros tid aid r Hi; in_trace; cbn [In]; tauto
    | intros s r Hi; in_trace;
      (split; [reflexivity | split; [reflexivity |]]);
      do 3 eexists; cbn [In]; tauto ].
Qed.

(** ** An agent created by one request and found by the next *)

(** A request that created an agent created one and started its run, if
    any, with it. *)
Lemma created_agent_is_used
    (env : environ) (query : string) (w w' : W) (o : res dict) (tr : Trace)
    (c : Call) (created : Agent.t) :
  run_search P env query w = (o, w', tr) ->
  In (c, ReplyAgent created) tr ->
  filter is_create_agent (calls tr) = [c] /\
  (forall tid aid r, In (CallRunsCreate tid aid, r) tr ->
     aid = Agent.id created) /\
  (forall v, payload_field "agent_id" o = Some v ->
     v = PyStr (Agent.id created)).
Proof.
  intros Hr Hin.
  assert (Hc : missing_required env = [])
    by (apply (configured_of_trace _ _ _ _ _ _ Hr); intros ->; destruct Hin).
  run_request Hc Hr; in_trace.
  all: split; [reflexivity | split].
  all: try (intros tid aid r Hi; in_trace; reflexivity).
  all: intros v Hv; cbn in Hv; first [discriminate Hv | now injection Hv].
Qed.

(** A request whose listing shows an agent of the configured name starts
    its run, if any, with the first such agent and creates none. *)
Lemma listed_agent_is_used
    (env : environ) (query : string) (w w' : W) (o : res dict) (tr : Trace)
    (before after : list Agent.t) (a : Agent.t) :
  run_search P env query w = (o, w', tr) ->
  In (CallListAgents, ReplyAgents (before ++ a :: after)%list) tr ->
  Agent.name a = environ_get env "AGENT_NAME" ->
  (forall b, In b before -> Agent.name b <> environ_get env "AGENT_NAME") ->
  filter is_create_agent (calls tr) = [] /\
  (forall tid aid r, In (CallRunsCreate tid aid, r) tr -> aid = Agent.id a) /\
  (forall v, payload_field "agent_id" o = Some v -> v = PyStr (Agent.id a)).
Proof.
  intros Hr Hin Ha Hb.
  assert (Hc : missing_required env = [])
    by (apply (configured_of_trace _ _ _ _ _ _ Hr); intros ->; destruct Hin).
  run_request Hc Hr; in_trace.
  all: resolve_lookup find_first_named.
  all: split; [reflexivity | split].
  all: try (intros tid aid r Hi; in_trace; reflexivity).
  all: intros v Hv; cbn in Hv; first [discriminate Hv | now injection Hv].
Qed.

(** X10. An agent is created once and then found by name: when a request
    creates the agent and the next request's listing shows it as the
    first agent of the configured name, the next request creates no agent
    and both requests start their runs with, and return, the same agent
    id. *)
Theorem created_agent_reused_next_request
    (env : environ) (query1 query2 : string) (w0 w1 w2 : W)
    (o1 o2 : res dict) (tr1 tr2 : Trace) (c : Call) (created : Agent.t)
    (before after : list Agent.t) :
  run_search P env query1 w0 = (o1, w1, tr1) ->
  run_search P env query2 w1 = (o2, w2, tr2) ->
  In (c, ReplyAgent created) tr1 ->
  In (CallListAgents, ReplyAgents (before ++ created :: after)%list) tr2 ->
  Agent.name created = environ_get env "AGENT_NAME" ->
  (forall b, In b before -> Agent.name b <> environ_get env "AGENT_NAME") ->
  filter is_create_agent (calls (tr1 ++ tr2)%list) = [c] /\
  (forall tid aid r,
     In (CallRunsCreate tid aid, r) (tr1 ++ tr2)%list ->
     aid = Agent.id created) /\
  (forall v1 v2,
     payload_field "agent_id" o1 = Some v1 ->
     payload_field "agent_id" o2 = Some v2 ->
     v1 = v2 /\ v2 = PyStr (Agent.id created)).
Proof.
  intros Hr1 Hr2 Hc Hl Hname Hbefore.
  destruct (created_agent_is_used _ _ _ _ _ _ _ _ Hr1 Hc)
    as (Hone & Hrun1 & Hid1).
  destruct (listed_agent_is_used _ _ _ _ _ _ _ _ _ Hr2 Hl Hname Hbefore)
    as (Hnone & Hrun2 & Hid2).
  split; [| split].
  - assert (E : calls (tr1 ++ tr2)%list = (calls tr1 ++ calls tr2)%list)
      by apply map_app.
    rewrite E, filter_app, Hone, Hnone; reflexivity.
  - intros tid aid r Hi; apply in_app_iff in Hi; destruct Hi;
      [eapply Hrun1 | eapply Hrun2]; eassumption.
  - intros v1 v2 H1 H2; rewrite (Hid1 _ H1), (Hid2 _ H2); auto.
Qed.

End Request.

(** ** Concrete requests *)

Lemma run_search_parts {W} (P : Platform W) (env : environ) (query : string)
    (w : W) :
  run_search P env query w =
  (outcome_of (run_search P env query w),
   world_of (run_search P env query w),
   trace_of (run_search P env query w)).
Proof.
  unfold outcome_of, world_of, trace_of.
  now destruct (run_search P env query w) as [[o w'] tr].
Qed.

Ltac by_run := vm_compute; first [reflexivity | tauto | discriminate].

(** C1: with nothing configured the handler raises; the caller receives no
    payload at all, so the configuration error is not surfaced as the
    generic error payload. *)
Lemma config_error_is_not_a_payload :
  missing_required [] = required_keys /\
  forall d,
    fst (fst (run_search Stub.platform [] "capital of France?" Stub.paris))
    <> Returned d.
Proof. split; [reflexivity | intros d; discriminate]. Qed.

Lemma missing_config_witness :
  missing_required [("BING_RESOURCE_NAME", "bing")] <> [] /\
  run_search Stub.platform [("BING_RESOURCE_NAME", "bing")] "q" Stub.paris =
    (Raised (EnvironmentError
       "Missing environment variable(s): PROJECT_CONNECTION_STRING"),
     Stub.paris, []).
Proof.
  split; [discriminate |].
  apply (missing_config_raises_before_any_call Stub.platform
           [("BING_RESOURCE_NAME", "bing")] "q" Stub.paris); discriminate.
Defined.

(** C2: the configuration error of step 1 propagates out of the handler. *)
Lemma config_error_escapes_handler :
  fst (fst (run_search Stub.platform
              [("PROJECT_CONNECTION_STRING", "https://project.example");
               ("BING_RESOURCE_NAME", "")] "q" Stub.paris))
  = Raised (mkExn "OSError"
              "Missing environment variable(s): BING_RESOURCE_NAME").
Proof. reflexivity. Qed.

Lemma guarded_block_witness :
  missing_required Stub.env_full = [] /\
  outcome_of (run_search Stub.platform Stub.env_full "q" Stub.no_connection)
  = Returned [("error", PyStr "connection not found")].
Proof.
  split; [reflexivity |].
  destruct (guarded_block_never_raises Stub.platform Stub.env_full "q"
              Stub.no_connection _ _ _ eq_refl eq_refl) as (_ & H & _).
  apply (H (CallConnectionsGet (Some "bing"))
           (mkExn "ResourceNotFoundError" "connection not found"));
    [vm_compute; tauto | reflexivity].
Defined.

(** C3: a listing returned newest first holds two assistant messages; the
    handler answers with the text of the older one, not with the most
    recent assistant message, and the same thread listed oldest first
    yields the other answer: the selection depends on the listing's
    order. *)
Lemma newest_first_listing_answers_with_oldest :
  most_recent_assistant (Stub.thread_messages Stub.newest_first)
  = Some (Stub.assistant "msg_2" 3 ["Paris."])
  /\ payload_field "run_status"
       (outcome_of (run_search Stub.platform Stub.env_full
                      "capital of France?" Stub.newest_first))
     = Some (PyStr "completed")
  /\ payload_field "assistant_response"
       (outcome_of (run_search Stub.platform Stub.env_full
                      "capital of France?" Stub.newest_first))
     = Some (PyStr "Let me look that up.")
  /\ payload_field "assistant_response"
       (outcome_of (run_search Stub.platform Stub.env_full
                      "capital of France?" Stub.oldest_first))
     = Some (PyStr "Paris.").
Proof. repeat apply conj; vm_compute; reflexivity. Qed.

Lemma assistant_response_witness :
  In (CallMessagesList "thread_0",
      ReplyMessages (Stub.thread_messages Stub.paris))
     (trace_of (run_search Stub.platform Stub.env_full
                  "capital of France?" Stub.paris))
  /\ payload_field "assistant_response"
       (outcome_of (run_search Stub.platform Stub.env_full
                      "capital of France?" Stub.paris))
     = Some (PyStr "Paris is the capital of France.")
  /\ payload_field "run_status"
       (outcome_of (run_search Stub.platform Stub.env_full
                      "capital of France?" Stub.paris))
     = Some (PyStr "completed").
Proof.
  assert (Hin : In (CallMessagesList "thread_0",
                    ReplyMessages (Stub.thread_messages Stub.paris))
                   (trace_of (run_search Stub.platform Stub.env_full
                                "capital of France?" Stub.paris)))
    by by_run.
  split; [exact Hin |].
  destruct (assistant_response_from_last_listed _ _ _ _ _ _ _ _ _
              (run_search_parts _ _ _ _) Hin)
    as ((run & Hobs & _ & Hst) & Hresp & _).
  split; [exact Hresp |].
  vm_compute in Hobs; injection Hobs as <-; exact Hst.
Defined.

Lemma failed_run_witness :
  observed_run (trace_of (run_search Stub.platform Stub.env_full
                            "capital of France?" Stub.rate_limited))
  = Some (Run.mk "run_0" "failed" (Some (PyStr "rate_limited")))
  /\ outcome_of (run_search Stub.platform Stub.env_full
                   "capital of France?" Stub.rate_limited)
     = Returned [("query", PyStr "capital of France?");
                 ("status", PyStr "failed");
                 ("error", PyStr "rate_limited")].
Proof.
  assert (Hobs : observed_run
                   (trace_of (run_search Stub.platform Stub.env_full
                                "capital of France?" Stub.rate_limited))
                 = Some (Run.mk "run_0" "failed" (Some (PyStr "rate_limited"))))
    by by_run.
  split; [exact Hobs |].
  exact (proj1 (failed_run_returns_early _ _ _ _ _ _ _ _
                  (run_search_parts _ _ _ _) Hobs eq_refl)).
Defined.

Lemma existing_agent_witness :
  In (CallListAgents,
      ReplyAgents ([Agent.mk "asst_a" (Some "translator")]
                   ++ Agent.mk "asst_b" (Some "searcher")
                   :: [Agent.mk "asst_c" (Some "searcher")])%list)
     (trace_of (run_search Stub.platform Stub.env_full
                  "capital of France?" Stub.staffed))
  /\ filter is_create_agent
       (calls (trace_of (run_search Stub.platform Stub.env_full
                           "capital of France?" Stub.staffed))) = []
  /\ payload_field "agent_id"
       (outcome_of (run_search Stub.platform Stub.env_full
                      "capital of France?" Stub.staffed))
     = Some (PyStr "asst_b").
Proof.
  assert (Hin : In (CallListAgents,
                    ReplyAgents ([Agent.mk "asst_a" (Some "translator")]
                                 ++ Agent.mk "asst_b" (Some "searcher")
                                 :: [Agent.mk "asst_c" (Some "searcher")])%list)
                   (trace_of (run_search Stub.platform Stub.env_full
                                "capital of France?" Stub.staffed)))
    by by_run.
  split; [exact Hin | split; [by_run |]].
  destruct (existing_agent_is_reused _ _ _ _ _ _ _ _ _ _
              (run_search_parts _ _ _ _) Hin eq_refl) as (_ & _ & _ & H).
  - intros b [<- | []]; discriminate.
  - apply (H "thread_0" (Stub.thread_messages Stub.staffed)); by_run.
Defined.

Lemma missing_agent_witness :
  In (CallListAgents, ReplyAgents [])
     (trace_of (run_search Stub.platform Stub.env_required_only
                  "capital of France?" Stub.paris))
  /\ filter is_create_agent
       (calls (trace_of (run_search Stub.platform Stub.env_required_only
                           "capital of France?" Stub.paris)))
     = [CallCreateAgent "gpt-4.1" None None
          [ToolDefinition.mk "bing_grounding" "conn/bing"]
          [("x-ms-enable-preview", "true")] 0%Z].
Proof.
  assert (Hin : In (CallListAgents, ReplyAgents [])
                   (trace_of (run_search Stub.platform Stub.env_required_only
                                "capital of France?" Stub.paris)))
    by by_run.
  split; [exact Hin |].
  destruct (missing_agent_is_created _ _ _ _ _ _ _ _
              (run_search_parts _ _ _ _) Hin (fun a (H : In a []) => match H with end))
    as (conn & reply & Hconn & _ & Hone & _).
  vm_compute in Hconn.
  repeat (destruct Hconn as [Hconn | Hconn]; try discriminate Hconn);
    [| destruct Hconn].
  injection Hconn as <-; exact Hone.
Defined.


Lemma refresh_failure_witness :
  In (CallRunsGet "thread_0" "run_0",
      ReplyRaised (mkExn "HttpResponseError" "service unavailable"))
     (trace_of (run_search Stub.platform Stub.env_full
                  "capital of France?" Stub.refresh_down))
  /\ outcome_of (run_search Stub.platform Stub.env_full
                   "capital of France?" Stub.refresh_down)
     = Returned [("query", PyStr "capital of France?");
                 ("agent_id", PyStr "asst_b");
                 ("thread_id", PyStr "thread_0");
                 ("run_id", PyStr "run_0");
                 ("run_status", PyStr "in_progress");
                 ("assistant_response",
                  PyStr "Paris is the capital of France.")].
Proof.
  assert (Hget : In (CallRunsGet "thread_0" "run_0",
                     ReplyRaised
                       (mkExn "HttpResponseError" "service unavailable"))
                    (trace_of (run_search Stub.platform Stub.env_full
                                 "capital of France?" Stub.refresh_down)))
    by by_run.
  split; [exact Hget |].
  assert (Hcreate : In (CallRunsCreate "thread_0" "asst_b",
                        ReplyRun (Run.mk "run_0" "in_progress" (Some PyNone)))
                       (trace_of (run_search Stub.platform Stub.env_full
                                    "capital of France?" Stub.refresh_down)))
    by by_run.
  destruct (refresh_failure_keeps_snapshot _ _ _ _ _ _ _ _ _ _ _ _ _
              (run_search_parts _ _ _ _) Hcreate Hget)
    as (_ & _ & _ & H).
  destruct H as (reply & Hl & _ & H); [discriminate |].
  vm_compute in Hl.
  repeat (destruct Hl as [Hl | Hl]; try discriminate Hl); [| destruct Hl].
  injection Hl as <-.
  exact (H _ eq_refl).
Defined.

Lemma two_requests_witness :
  In (CallListAgents, ReplyAgents Stub.three_agents)
     (trace_of (run_search Stub.platform Stub.env_full
                  "capital of France?" Stub.staffed))
  /\ payload_field "thread_id"
       (outcome_of (run_search Stub.platform Stub.env_full
                      "capital of France?" Stub.staffed))
     = Some (PyStr "thread_0")
  /\ payload_field "thread_id"
       (outcome_of
          (run_search Stub.platform Stub.env_full "capital of France?"
             (world_of (run_search Stub.platform Stub.env_full
                          "capital of France?" Stub.staffed))))
     = Some (PyStr "thread_1")
  /\ PyStr "thread_0" <> PyStr "thread_1".
Proof.
  assert (Hl1 : In (CallListAgents, ReplyAgents Stub.three_agents)
                   (trace_of (run_search Stub.platform Stub.env_full
                                "capital of France?" Stub.staffed)))
    by by_run.
  assert (Hl2 : In (CallListAgents, ReplyAgents Stub.three_agents)
                   (trace_of
                      (run_search Stub.platform Stub.env_full
                         "capital of France?"
                         (world_of (run_search Stub.platform Stub.env_full
                                      "capital of France?" Stub.staffed)))))
    by by_run.
  assert (Ha : exists a, In a Stub.three_agents /\
                         Agent.name a = environ_get Stub.env_full "AGENT_NAME")
    by (exists (Agent.mk "asst_b" (Some "searcher")); split;
        [right; left |]; reflexivity).
  assert (Hv1 : payload_field "thread_id"
                  (outcome_of (run_search Stub.platform Stub.env_full
                                 "capital of France?" Stub.staffed))
                = Some (PyStr "thread_0")) by by_run.
  assert (Hv2 : payload_field "thread_id"
                  (outcome_of
                     (run_search Stub.platform Stub.env_full
                        "capital of France?"
                        (world_of (run_search Stub.platform Stub.env_full
                                     "capital of France?" Stub.staffed))))
                = Some (PyStr "thread_1")) by by_run.
  split; [exact Hl1 | split; [exact Hv1 | split; [exact Hv2 |]]].
  destruct (sequential_requests_fresh_threads _ _ _ _ _ _ _ _ _ _ _ _
              (run_search_parts _ _ _ _) (run_search_parts _ _ _ _)
              Hl1 Hl2 Ha Ha) as (_ & _ & _ & H).
  - intros t1 t2 H1 H2; vm_compute in H1, H2.
    repeat (destruct H1 as [H1 | H1]; try discriminate H1); [| destruct H1].
    repeat (destruct H2 as [H2 | H2]; try discriminate H2); [| destruct H2].
    injection H1 as <-; injection H2 as <-; discriminate.
  - exact (H _ _ Hv1 Hv2).
Defined.

(** C10: with AGENT_NAME unset, the agent the handler created on a first
    request (its name is null) is found by the lookup of the next request
    and reused: no agent is created and its id is returned. The same
    happens for any listed agent whose name is null. *)
Lemma unset_agent_name_reuses_unnamed_agent :
  environ_get Stub.env_required_only "AGENT_NAME" = None
  /\ Stub.agents (world_of (run_search Stub.platform Stub.env_required_only
                              "capital of France?" Stub.paris))
     = [Agent.mk "asst_0" None]
  /\ filter is_create_agent
       (calls (trace_of
                 (run_search Stub.platform Stub.env_required_only
                    "capital of France?"
                    (world_of (run_search Stub.platform
                                 Stub.env_required_only
                                 "capital of France?" Stub.paris))))) = []
  /\ payload_field "agent_id"
       (outcome_of
          (run_search Stub.platform Stub.env_required_only
             "capital of France?"
             (world_of (run_search Stub.platform Stub.env_required_only
                          "capital of France?" Stub.paris))))
     = Some (PyStr "asst_0")
  /\ filter is_create_agent
       (calls (trace_of (run_search Stub.platform Stub.env_required_only
                           "capital of France?" Stub.unnamed_agent))) = []
  /\ payload_field "agent_id"
       (outcome_of (run_search Stub.platform Stub.env_required_only
                      "capital of France?" Stub.unnamed_agent))
     = Some (PyStr "asst_u").
Proof. repeat apply conj; vm_compute; reflexivity. Qed.

Lemma optional_settings_witness :
  missing_required Stub.env_required_only = []
  /\ (exists d, outcome_of (run_search Stub.platform Stub.env_required_only
                              "capital of France?" Stub.paris) = Returned d)
  /\ forall model name instructions tools headers temperature reply,
       In (CallCreateAgent model name instructions tools headers temperature,
           reply)
          (trace_of (run_search Stub.platform Stub.env_required_only
                       "capital of France?" Stub.paris)) ->
       name = None /\ instructions = None.
Proof.
  split; [reflexivity |].
  destruct (optional_settings_not_validated _ _ _ _ _ _ _
              (eq_refl : missing_required Stub.env_required_only = [])
              (run_search_parts Stub.platform Stub.env_required_only
                 "capital of France?" Stub.paris))
    as (Hd & _ & Hcreate & _).
  split; [exact Hd | exact Hcreate].
Defined.

(** *** Requests run for the further properties *)

Lemma created_thread_witness :
  In (CallThreadsCreate, ReplyThread (Thread.mk "thread_0"))
     (trace_of (run_search Stub.platform Stub.env_full
                  "capital of France?" Stub.paris))
  /\ filter is_messages_list
       (calls (trace_of (run_search Stub.platform Stub.env_full
                           "capital of France?" Stub.paris)))
     = [CallMessagesList "thread_0"]
  /\ forall tid r,
       In (CallMessagesList tid, r)
          (trace_of (run_search Stub.platform Stub.env_full
                       "capital of France?" Stub.paris)) ->
       tid = "thread_0".
Proof.
  assert (Hin : In (CallThreadsCreate, ReplyThread (Thread.mk "thread_0"))
                   (trace_of (run_search Stub.platform Stub.env_full
                                "capital of France?" Stub.paris)))
    by by_run.
  split; [exact Hin | split; [by_run |]].
  exact (proj1 (proj2 (proj2
           (calls_name_the_created_thread _ _ _ _ _ _ _ _
              (run_search_parts _ _ _ _) Hin)))).
Defined.

Lemma query_posted_witness :
  In (CallThreadsCreate, ReplyThread (Thread.mk "thread_0"))
     (trace_of (run_search Stub.platform Stub.env_full
                  "capital of France?" Stub.paris))
  /\ filter is_messages_create
       (calls (trace_of (run_search Stub.platform Stub.env_full
                           "capital of France?" Stub.paris)))
     = [CallMessagesCreate "thread_0" "user" "capital of France?"].
Proof.
  assert (Hin : In (CallThreadsCreate, ReplyThread (Thread.mk "thread_0"))
                   (trace_of (run_search Stub.platform Stub.env_full
                                "capital of France?" Stub.paris)))
    by by_run.
  split; [exact Hin |].
  exact (query_posted_verbatim _ _ _ _ _ _ _ _
           (run_search_parts _ _ _ _) Hin).
Defined.

Lemma refreshed_run_witness :
  In (CallRunsCreate "thread_0" "asst_b",
      ReplyRun (Run.mk "run_0" "failed" (Some PyNone)))
     (trace_of (run_search Stub.platform Stub.env_full
                  "capital of France?" Stub.recovered))
  /\ In (CallRunsGet "thread_0" "run_0",
         ReplyRun (Run.mk "run_0" "completed" (Some PyNone)))
        (trace_of (run_search Stub.platform Stub.env_full
                     "capital of France?" Stub.recovered))
  /\ payload_field "run_status"
       (outcome_of (run_search Stub.platform Stub.env_full
                      "capital of France?" Stub.recovered))
     = Some (PyStr "completed").
Proof.
  assert (Hget : In (CallRunsGet "thread_0" "run_0",
                     ReplyRun (Run.mk "run_0" "completed" (Some PyNone)))
                    (trace_of (run_search Stub.platform Stub.env_full
                                 "capital of France?" Stub.recovered)))
    by by_run.
  split; [by_run | split; [exact Hget |]].
  destruct (refreshed_run_decides _ _ _ _ _ _ _ _ _ _
              (run_search_parts _ _ _ _) Hget) as (_ & _ & H).
  destruct H as [_ H]; [discriminate |].
  apply (H "thread_0" (Stub.thread_messages Stub.recovered)); by_run.
Defined.

Lemma unfailed_run_witness :
  observed_run (trace_of (run_search Stub.platform Stub.env_full
                            "capital of France?" Stub.cancelled))
  = Some (Run.mk "run_0" "cancelled" (Some PyNone))
  /\ exists tid reply,
       filter is_messages_list
         (calls (trace_of (run_search Stub.platform Stub.env_full
                             "capital of France?" Stub.cancelled)))
       = [CallMessagesList tid] /\
       In (CallMessagesList tid, reply)
          (trace_of (run_search Stub.platform Stub.env_full
                       "capital of France?" Stub.cancelled)).
Proof.
  assert (Hobs : observed_run
                   (trace_of (run_search Stub.platform Stub.env_full
                                "capital of France?" Stub.cancelled))
                 = Some (Run.mk "run_0" "cancelled" (Some PyNone)))
    by by_run.
  split; [exact Hobs |].
  destruct (unfailed_run_lists_messages _ _ _ _ _ _ _ _
              (run_search_parts _ _ _ _) Hobs)
    as (tid & reply & Hone & Hin & _); [discriminate |].
  exists tid, reply; split; assumption.
Defined.

Lemma payload_shapes_witness :
  missing_required Stub.env_full = []
  /\ exists d,
       outcome_of (run_search Stub.platform Stub.env_full
                     "capital of France?" Stub.rate_limited) = Returned d /\
       (dict_keys d = error_keys \/
        (dict_keys d = failure_keys /\
         dict_get "query" d = Some (PyStr "capital of France?") /\
         dict_get "status" d = Some (PyStr "failed")) \/
        (dict_keys d = success_keys /\
         dict_get "query" d = Some (PyStr "capital of France?") /\
         exists st, dict_get "run_status" d = Some (PyStr st) /\
                    st <> "failed")).
Proof.
  split; [reflexivity |].
  exact (payload_shapes Stub.platform Stub.env_full "capital of France?"
           Stub.rate_limited _ _ _ eq_refl (run_search_parts _ _ _ _)).
Defined.

Lemma trimmed_answer_witness :
  payload_field "assistant_response"
    (outcome_of (run_search Stub.platform Stub.env_full
                   "capital of France?" Stub.padded_answer))
  = Some (PyStr ("Paris." ++ newline ++ "Sources: none."))
  /\ strip ("Paris." ++ newline ++ "Sources: none.")
     = "Paris." ++ newline ++ "Sources: none.".
Proof.
  assert (Hv : payload_field "assistant_response"
                 (outcome_of (run_search Stub.platform Stub.env_full
                                "capital of France?" Stub.padded_answer))
               = Some (PyStr ("Paris." ++ newline ++ "Sources: none.")))
    by by_run.
  split; [exact Hv |].
  destruct (assistant_response_is_trimmed _ _ _ _ _ _ _ _
              (run_search_parts _ _ _ _) Hv)
    as [Hnone | (s & Hs & _ & Htrim & _)]; [discriminate Hnone |].
  injection Hs as <-; exact Htrim.
Defined.

Lemma blank_answer_witness :
  last_assistant (Stub.thread_messages Stub.blank_answer)
  = Some (Stub.assistant "msg_1" 2 ["  "; String "009" ""])
  /\ payload_field "assistant_response"
       (outcome_of (run_search Stub.platform Stub.env_full
                      "capital of France?" Stub.blank_answer))
     = Some PyNone.
Proof.
  split; [reflexivity |].
  apply (blank_answer_is_null Stub.platform Stub.env_full
           "capital of France?" Stub.blank_answer _ _ _
           "thread_0" (Stub.thread_messages Stub.blank_answer)
           (Stub.assistant "msg_1" 2 ["  "; String "009" ""])
           (run_search_parts _ _ _ _)); [by_run | reflexivity |].
  intros item t v [<- | [<- | []]] [= <-] [= <-]; reflexivity.
Defined.

Lemma created_agent_witness :
  In (CallCreateAgent "gpt-4.1" (Some "searcher")
        (Some "Answer with sources.")
        [ToolDefinition.mk "bing_grounding" "conn/bing"]
        [("x-ms-enable-preview", "true")] 0%Z,
      ReplyAgent (Agent.mk "asst_0" (Some "searcher")))
     (trace_of (run_search Stub.platform Stub.env_full
                  "capital of France?" Stub.paris))
  /\ In (CallListAgents,
         ReplyAgents ([] ++ Agent.mk "asst_0" (Some "searcher") :: [])%list)
        (trace_of
           (run_search Stub.platform Stub.env_full "capital of Spain?"
              (world_of (run_search Stub.platform Stub.env_full
                           "capital of France?" Stub.paris))))
  /\ forall tid aid r,
       In (CallRunsCreate tid aid, r)
          (trace_of (run_search Stub.platform Stub.env_full
                       "capital of France?" Stub.paris)
           ++ trace_of
                (run_search Stub.platform Stub.env_full "capital of Spain?"
                   (world_of (run_search Stub.platform Stub.env_full
                                "capital of France?" Stub.paris))))%list ->
       aid = "asst_0".
Proof.
  assert (Hc : In (CallCreateAgent "gpt-4.1" (Some "searcher")
                     (Some "Answer with sources.")
                     [ToolDefinition.mk "bing_grounding" "conn/bing"]
                     [("x-ms-enable-preview", "true")] 0%Z,
                   ReplyAgent (Agent.mk "asst_0" (Some "searcher")))
                  (trace_of (run_search Stub.platform Stub.env_full
                               "capital of France?" Stub.paris)))
    by by_run.
  assert (Hl : In (CallListAgents,
                   ReplyAgents
                     ([] ++ Agent.mk "asst_0" (Some "searcher") :: [])%list)
                  (trace_of
                     (run_search Stub.platform Stub.env_full
                        "capital of Spain?"
                        (world_of (run_search Stub.platform Stub.env_full
                                     "capital of France?" Stub.paris)))))
    by by_run.
  split; [exact Hc | split; [exact Hl |]].
  destruct (created_agent_reused_next_request _ _ _ _ _ _ _ _ _ _ _ _ _ _ _
              (run_search_parts _ _ _ _) (run_search_parts _ _ _ _)
              Hc Hl eq_refl) as (_ & H & _).
  - intros b [].
  - exact H.
Defined.
